(** * popolo/models.py: the Popolo schema, its side tables and its pre-save hook

    A shallow embedding of [popolo/models.py].  The file is declarative: what it
    does is decided by how Django (1.5/1.6, the release line the imports belong
    to) reads the declarations.  The development therefore has three layers:

    - [Py], [Re]: the Python primitives the module relies on (exceptions,
      [str.lower], [re.search]);
    - [Django]: the part of the framework that gives the declarations their
      meaning ([Field.clean], [Model.full_clean], [Signal.send],
      [Model.save_base], reverse accessors);
    - [Behaviors] and [Models]: the mixins the module imports and the module
      itself, statement by statement.

    The statements about the module follow the definitions. *)

From Stdlib Require Import String Ascii ZArith Bool Lia.
From stdpp Require Import base option list gmap strings.

Local Open Scope string_scope.
Local Open Scope list_scope.

(* ===================================================================== *)
(** ** Python primitives *)
(* ===================================================================== *)

Module Py.

(** Exceptions raised by the module or by the framework on its behalf.  A
    [ValidationError] carries Django's [message_dict] with error codes in
    place of translated messages: field name, then the codes of the checks
    that failed for it ([NON_FIELD_ERRORS] is the key ["__all__"]). *)
Inductive exception :=
| ImproperlyConfigured (msg : string)
| ValidationError (errors : list (string * list string))
| IntegrityError (column : string)
| AttributeError (attr : string).

Inductive result (A : Type) :=
| Ok (a : A)
| Raise (e : exception).
Arguments Ok {A} a.
Arguments Raise {A} e.

Definition bind {A B} (m : result A) (k : A -> result B) : result B :=
  match m with
  | Ok a => k a
  | Raise e => Raise e
  end.

(** [c.lower()] on one character (ASCII letters only, as class names are). *)
Definition lower_char (c : ascii) : ascii :=
  let n := nat_of_ascii c in
  if (65 <=? n)%nat && (n <=? 90)%nat then ascii_of_nat (n + 32) else c.

(** [s.lower()] *)
Fixpoint lower (s : string) : string :=
  match s with
  | EmptyString => EmptyString
  | String c s' => String (lower_char c) (lower s')
  end.

(** [len(s)] *)
Definition len (s : string) : nat := String.length s.

(** [a <= b] on strings: lexicographic on character codes. *)
Definition str_le (a b : string) : bool := String.leb a b.

End Py.

(* ===================================================================== *)
(** ** Regular expressions: the fragment of [re] the module uses *)
(* ===================================================================== *)

Module Re.

(** Syntax of the patterns.  [Rep r lo hi] is [r{lo,hi}]; [Grp] is a
    parenthesised group, which only matters for printing. *)
Inductive regex :=
| Bol                              (* ^ *)
| Eol                              (* $ *)
| Chr (c : ascii)                  (* a literal character *)
| Cls (lo hi : ascii)              (* [lo-hi] *)
| Cat (r1 r2 : regex)              (* r1 r2 *)
| Grp (r : regex)                  (* (r) *)
| Rep (r : regex) (lo hi : nat).   (* r{lo,hi} *)

Definition digit_char (n : nat) : string :=
  match n with
  | 0 => "0" | 1 => "1" | 2 => "2" | 3 => "3" | 4 => "4"
  | 5 => "5" | 6 => "6" | 7 => "7" | 8 => "8" | _ => "9"
  end.

(** The concrete syntax of a pattern (counts below ten are all the module
    writes).  [lo = hi] prints as [{lo}]. *)
Fixpoint show (r : regex) : string :=
  match r with
  | Bol => "^"
  | Eol => "$"
  | Chr c => String c EmptyString
  | Cls lo hi => "[" ++ String lo ("-" ++ String hi "]")
  | Cat r1 r2 => show r1 ++ show r2
  | Grp r => "(" ++ show r ++ ")"
  | Rep r lo hi =>
      show r ++ "{" ++ digit_char lo
             ++ (if Nat.eqb lo hi then "" else "," ++ digit_char hi) ++ "}"
  end.

Definition in_class (lo hi c : ascii) : bool :=
  (nat_of_ascii lo <=? nat_of_ascii c)%nat && (nat_of_ascii c <=? nat_of_ascii hi)%nat.

(** [$] without [re.MULTILINE]: at the end of the string, or just before a
    newline that is the last character. *)
Definition at_end (s : string) : bool :=
  match s with
  | EmptyString => true
  | String c EmptyString => Ascii.eqb c "010"%char
  | _ => false
  end.

Definition cont := nat -> string -> bool.

(** Bounded repetition, greedy: one more round if [hi] allows, else stop
    when [lo] rounds are done. *)
Fixpoint rep (m : nat -> string -> cont -> bool) (lo hi : nat)
         (pos : nat) (s : string) (k : cont) : bool :=
  match hi with
  | 0 => Nat.eqb lo 0 && k pos s
  | S hi' =>
      m pos s (fun p t => rep m (Nat.pred lo) hi' p t k)
      || (Nat.eqb lo 0 && k pos s)
  end.

(** Backtracking matcher in continuation-passing style: [rmatch r pos s k]
    holds when [r] matches a prefix of [s] (which starts at offset [pos] of
    the subject) and [k] accepts the offset and the rest. *)
Fixpoint rmatch (r : regex) (pos : nat) (s : string) (k : cont) : bool :=
  match r with
  | Bol => Nat.eqb pos 0 && k pos s
  | Eol => at_end s && k pos s
  | Chr c =>
      match s with
      | String a s' => Ascii.eqb a c && k (S pos) s'
      | EmptyString => false
      end
  | Cls lo hi =>
      match s with
      | String a s' => in_class lo hi a && k (S pos) s'
      | EmptyString => false
      end
  | Cat r1 r2 => rmatch r1 pos s (fun p t => rmatch r2 p t k)
  | Grp r => rmatch r pos s k
  | Rep r lo hi => rep (rmatch r) lo hi pos s k
  end.

(** [re.search]: a match starting at any offset. *)
Fixpoint search_from (r : regex) (pos : nat) (s : string) : bool :=
  rmatch r pos s (fun _ _ => true)
  || match s with
     | EmptyString => false
     | String _ s' => search_from r (S pos) s'
     end.

Definition search (r : regex) (s : string) : bool := search_from r 0 s.

End Re.

(* ===================================================================== *)
(** ** Django: fields, validation, signals, persistence *)
(* ===================================================================== *)

Module Django.
Import Py.

(** What a model attribute holds: [None], a text, an integer, or the primary
    key of the row a foreign key points to.  Values are stored with the Python
    type of their field; the coercions of [to_python] are not modelled. *)
Inductive value :=
| VNone
| VStr (s : string)
| VInt (z : Z)
| VRef (pk : nat).

Definition value_eqb (a b : value) : bool :=
  match a, b with
  | VNone, VNone => true
  | VStr s, VStr t => String.eqb s t
  | VInt x, VInt y => Z.eqb x y
  | VRef p, VRef q => Nat.eqb p q
  | _, _ => false
  end.

(** [value in validators.EMPTY_VALUES], that is [(None, '', [], (), {})]. *)
Definition is_empty (v : value) : bool :=
  match v with
  | VNone => true
  | VStr s => String.eqb s ""
  | _ => false
  end.

Inductive validator :=
| RegexValidator (regex : Re.regex) (message code : string)
| MaxLengthValidator (limit_value : nat)
| EmailValidator
| URLValidator.

Inductive field_kind :=
| KChar | KText | KEmail | KURL | KInteger
| KForeignKey (to : string) (related_name : option string).

Record field := Field {
  f_name : string;
  f_kind : field_kind;
  f_max_length : option nat;
  f_null : bool;
  f_blank : bool;
  f_choices : list value;
  f_validators : list validator
}.

(** The constructors of [django.db.models], with their defaults
    ([null=False], [blank=False], no choices, no validators).  The verbose
    name and the help text have no effect on validation and are dropped. *)
Definition CharField (name : string) (max_length : nat) : field :=
  Field name KChar (Some max_length) false false [] [].
Definition TextField (name : string) : field :=
  Field name KText None false false [] [].
Definition EmailField (name : string) : field :=
  Field name KEmail (Some 75) false false [] [].
Definition URLField (name : string) : field :=
  Field name KURL (Some 200) false false [] [].
Definition IntegerField (name : string) : field :=
  Field name KInteger None false false [] [].
Definition ForeignKey (name to : string) (related_name : option string) : field :=
  Field name (KForeignKey to related_name) None false false [] [].

(** Keyword arguments. *)
Definition null (f : field) : field :=
  Field (f_name f) (f_kind f) (f_max_length f) true (f_blank f) (f_choices f) (f_validators f).
Definition blank (f : field) : field :=
  Field (f_name f) (f_kind f) (f_max_length f) (f_null f) true (f_choices f) (f_validators f).
Definition choices (cs : list value) (f : field) : field :=
  Field (f_name f) (f_kind f) (f_max_length f) (f_null f) (f_blank f) cs (f_validators f).
Definition validators (vs : list validator) (f : field) : field :=
  Field (f_name f) (f_kind f) (f_max_length f) (f_null f) (f_blank f) (f_choices f) vs.

(** [django.core.validators.validate_email] and [URLValidator] belong to the
    framework; what they accept is a parameter of the development. *)
Record externals := Externals {
  validate_email : string -> bool;
  validate_url : string -> bool
}.

(** A class statement: name, bases, [Meta.abstract], the fields declared in
    the body and the [clean] method if the body defines one ([clean] reports
    the codes of the object-level checks that fail). *)
#[local] Unset Elimination Schemes.
Inductive pyclass :=
| Class (name : string) (bases : list pyclass) (abstract : bool)
        (fields : list field)
        (clean : option (gmap string value -> list string)).
#[local] Set Elimination Schemes.

Definition c_name (c : pyclass) : string :=
  match c with Class n _ _ _ _ => n end.
Definition c_bases (c : pyclass) : list pyclass :=
  match c with Class _ bs _ _ _ => bs end.
Definition c_abstract (c : pyclass) : bool :=
  match c with Class _ _ a _ _ => a end.
Definition c_fields (c : pyclass) : list field :=
  match c with Class _ _ _ fs _ => fs end.

(** [django.db.models.Model], the root of every model class. *)
Definition Model : pyclass := Class "Model" [] true [] None.

(** The classes a class inherits from, itself first, bases left to right. *)
Fixpoint mro (c : pyclass) : list pyclass :=
  match c with
  | Class _ bs _ _ _ => c :: flat_map mro bs
  end.

Definition issubclass (c : pyclass) (base : string) : bool :=
  existsb (fun b => String.eqb (c_name b) base) (mro c).

(** [cls._meta.fields]: inherited fields first, then the class's own. *)
Fixpoint meta_fields (c : pyclass) : list field :=
  match c with
  | Class _ bs _ fs _ => flat_map meta_fields bs ++ fs
  end.

(** [self.clean]: the first definition along the bases; [Model.clean] does
    nothing. *)
Definition resolve_clean (c : pyclass) : gmap string value -> list string :=
  let defined := flat_map (fun b => match b with
                                    | Class _ _ _ _ (Some m) => [m]
                                    | _ => []
                                    end) (mro c) in
  match defined with
  | m :: _ => m
  | [] => fun _ => []
  end.

(** A model instance and the rows of the database.  A stored row has a
    primary key.  The classes of the module are abstract: a project realises
    each of them by a model of the same name in its own application, and the
    development does not tell the realising model from the class it realises,
    so instances, rows and senders carry the classes of the module. *)
Record instance := Instance {
  i_class : pyclass;
  i_pk : option nat;
  i_attrs : gmap string value
}.

Definition database := list instance.

(** [getattr(self, f.attname)]; an attribute never assigned is [None]. *)
Definition getattr (obj : instance) (name : string) : value :=
  default VNone (i_attrs obj !! name).

(** *** Field validation ([django/db/models/fields/__init__.py]) *)

(** One validator called on a text.  [RegexValidator.__call__] raises its
    [code] unless [regex.search] finds a match; [MaxLengthValidator] raises
    when [len(value) > limit_value]. *)
Definition run_validator (ext : externals) (v : validator) (s : string) : list string :=
  match v with
  | RegexValidator regex _ code => if Re.search regex s then [] else [code]
  | MaxLengthValidator limit_value =>
      if (limit_value <? len s)%nat then ["max_length"] else []
  | EmailValidator => if validate_email ext s then [] else ["invalid"]
  | URLValidator => if validate_url ext s then [] else ["invalid"]
  end.

(** [Field.validators]: the defaults of the field class, then the
    [validators=] argument, then the length check a [CharField] appends. *)
Definition field_validators (f : field) : list validator :=
  match f_kind f with
  | KEmail => [EmailValidator]
  | KURL => [URLValidator]
  | _ => []
  end
  ++ f_validators f
  ++ match f_max_length f with
     | Some n => [MaxLengthValidator n]
     | None => []
     end.

(** [Field.run_validators]: nothing runs on an empty value; otherwise every
    validator runs and the errors are collected. *)
Definition run_validators (ext : externals) (f : field) (v : value) : list string :=
  if is_empty v then []
  else match v with
       | VStr s => flat_map (fun vd => run_validator ext vd s) (field_validators f)
       | _ => []
       end.

(** Does the value have the Python type of the field? *)
Definition well_typed (f : field) (v : value) : bool :=
  match v, f_kind f with
  | VNone, _ => true
  | VStr _, (KChar | KText | KEmail | KURL) => true
  | VInt _, KInteger => true
  | VRef _, KForeignKey _ _ => true
  | _, _ => false
  end.

(** [Field.validate]: choices, then [null], then [blank].  The first failure
    is raised. *)
Definition has_choices (f : field) : bool :=
  match f_choices f with
  | [] => false
  | _ :: _ => true
  end.

Definition validate (f : field) (v : value) : option string :=
  if has_choices f && negb (is_empty v)
  then (if existsb (value_eqb v) (f_choices f) then None else Some "invalid_choice")
  else if value_eqb v VNone && negb (f_null f) then Some "null"
  else if negb (f_blank f) && is_empty v then Some "blank"
  else None.

(** The label of a model: [app_label.ModelName]. *)
Definition label (app : string) (c : pyclass) : string :=
  (app ++ "." ++ c_name c)%string.

(** [ForeignKey.validate]: after [Field.validate], a non-null key must be
    the primary key of a row of the model the key points to. *)
Definition row_exists (app : string) (db : database) (to : string) (pk : nat) : bool :=
  existsb (fun r => String.eqb (label app (i_class r)) to
                    && match i_pk r with Some p => Nat.eqb p pk | None => false end) db.

Definition validate_related (app : string) (db : database) (f : field) (v : value)
  : option string :=
  match f_kind f, v with
  | KForeignKey to _, VRef pk => if row_exists app db to pk then None else Some "invalid"
  | _, _ => None
  end.

(** [Field.clean]: [to_python], [validate], [run_validators]. *)
Definition clean (ext : externals) (app : string) (db : database)
           (f : field) (v : value) : list string :=
  if negb (well_typed f v) then ["invalid"]
  else match validate f v with
       | Some code => [code]
       | None =>
           match validate_related app db f v with
           | Some code => [code]
           | None => run_validators ext f v
           end
       end.

(** *** Model validation ([django/db/models/base.py]) *)

(** The loop body of [Model.clean_fields]: a blank-able field holding an
    empty value is skipped; otherwise the errors of [Field.clean] are filed
    under the field's name. *)
Definition clean_field (ext : externals) (app : string) (db : database)
           (obj : instance) (f : field) : list (string * list string) :=
  let raw_value := getattr obj (f_name f) in
  if f_blank f && is_empty raw_value then []
  else match clean ext app db f raw_value with
       | [] => []
       | errs => [(f_name f, errs)]
       end.

Definition clean_fields (ext : externals) (app : string) (db : database)
           (obj : instance) : list (string * list string) :=
  flat_map (clean_field ext app db obj) (meta_fields (i_class obj)).

(** [Model.full_clean]: [clean_fields], then [clean] (run even when a field
    failed), and one [ValidationError] with everything found.  No field of
    the module is declared unique, so [validate_unique] has nothing to add. *)
Definition full_clean_errors (ext : externals) (app : string) (db : database)
           (obj : instance) : list (string * list string) :=
  clean_fields ext app db obj
  ++ match resolve_clean (i_class obj) (i_attrs obj) with
     | [] => []
     | errs => [("__all__", errs)]
     end.

Definition full_clean (ext : externals) (app : string) (db : database)
           (obj : instance) : result unit :=
  match full_clean_errors ext app db obj with
  | [] => Ok tt
  | errors => Raise (ValidationError errors)
  end.

(** What a [message_dict] holds for one field, and what [full_clean] reports
    for it: the field is accepted when this is empty. *)
Definition errors_for (name : string) (errors : list (string * list string)) : list string :=
  flat_map (fun e => if String.eqb (fst e) name then snd e else []) errors.

Definition field_errors (ext : externals) (app : string) (db : database)
           (obj : instance) (name : string) : list string :=
  errors_for name (full_clean_errors ext app db obj).

(** *** Signals ([django/dispatch/dispatcher.py]) *)

(** A connected receiver: the [sender] it was connected for and the
    function. *)
Record receiver := Receiver {
  r_sender : pyclass;
  r_func : database -> instance -> result unit
}.

(** [Signal.send(sender, instance=obj)]: the receivers connected for that
    very sender are called in turn; an exception of a receiver propagates.
    Senders are compared by class; the classes at hand have distinct names. *)
Fixpoint send (receivers : list receiver) (sender : pyclass)
         (db : database) (obj : instance) : result unit :=
  match receivers with
  | [] => Ok tt
  | r :: rest =>
      if String.eqb (c_name (r_sender r)) (c_name sender)
      then bind (r_func r db obj) (fun _ => send rest sender db obj)
      else send rest sender db obj
  end.

(** Which receivers a [send] calls. *)
Definition live_receivers (receivers : list receiver) (sender : pyclass) : list receiver :=
  List.filter (fun r => String.eqb (c_name (r_sender r)) (c_name sender)) receivers.

(** *** Persistence ([Model.save_base]) *)

(** The INSERT or UPDATE fails on the first column declared [NOT NULL]
    (a field without [null=True]) that holds no value. *)
Definition not_null_violation (obj : instance) : option string :=
  option_map f_name
    (List.find (fun f => negb (f_null f) && value_eqb (getattr obj (f_name f)) VNone)
               (meta_fields (i_class obj))).

Definition same_row (c : pyclass) (pk : nat) (r : instance) : bool :=
  String.eqb (c_name (i_class r)) (c_name c)
  && match i_pk r with Some p => Nat.eqb p pk | None => false end.

Definition next_pk (db : database) (c : pyclass) : nat :=
  S (fold_right Nat.max 0
       (flat_map (fun r => if String.eqb (c_name (i_class r)) (c_name c)
                           then match i_pk r with Some p => [p] | None => [] end
                           else []) db)).

(** The row written: an instance without primary key gets the next one; a
    row with the same key is replaced. *)
Definition store (db : database) (obj : instance) : database :=
  match i_pk obj with
  | Some pk => List.filter (fun r => negb (same_row (i_class obj) pk r)) db ++ [obj]
  | None => db ++ [Instance (i_class obj) (Some (next_pk db (i_class obj))) (i_attrs obj)]
  end.

(** [Model._save_table]: the row is written unless a [NOT NULL] column is
    empty. *)
Definition save_table (db : database) (obj : instance) : result database :=
  match not_null_violation obj with
  | Some column => Raise (IntegrityError column)
  | None => Ok (store db obj)
  end.

(** [Model.save_base]: [pre_save] is sent with the class of the instance as
    sender, then the row is written. *)
Definition save_base (receivers : list receiver) (db : database) (obj : instance)
  : result database :=
  bind (send receivers (i_class obj) db obj) (fun _ => save_table db obj).

(** *** Reverse accessors ([django/db/models/fields/related.py]) *)

(** [RelatedObject.get_accessor_name]: the [related_name] of the key, or the
    lower-cased name of the model that declares it followed by [_set]. *)
Definition get_accessor_name (source : pyclass) (f : field) : option (string * string) :=
  match f_kind f with
  | KForeignKey to related_name =>
      Some (to, default (lower (c_name source) ++ "_set")%string related_name)
  | _ => None
  end.

(** The foreign keys of [models] that install an accessor called [name] on
    the model labelled [target]. *)
Definition reverse_accessors (models : list pyclass) (target name : string)
  : list (pyclass * field) :=
  flat_map (fun m =>
    flat_map (fun f =>
      match get_accessor_name m f with
      | Some (to, acc) => if String.eqb acc name && String.eqb to target then [(m, f)] else []
      | None => []
      end) (meta_fields m)) models.

(** [manager.all()] of a reverse accessor: the rows of the source model whose
    key [f] holds the primary key of [obj] (none for an instance that has not
    been saved). *)
Definition related_objects (db : database) (source : pyclass) (f : field) (obj : instance)
  : list instance :=
  match i_pk obj with
  | Some pk =>
      List.filter (fun r => String.eqb (c_name (i_class r)) (c_name source)
                            && value_eqb (getattr r (f_name f)) (VRef pk)) db
  | None => []
  end.

(** [getattr(obj, name).all()] for a name that is neither a field nor a
    method of the class: the reverse accessor of that name, or
    [AttributeError]. *)
Definition related_all (app : string) (models : list pyclass) (db : database)
           (obj : instance) (name : string) : result (list instance) :=
  match reverse_accessors models (label app (i_class obj)) name with
  | (source, f) :: _ => Ok (related_objects db source f obj)
  | [] => Raise (AttributeError name)
  end.

End Django.

(* ===================================================================== *)
(** ** popolo/behaviors/models.py *)
(* ===================================================================== *)

Module Behaviors.
Import Py Django.

(** Modelled from the spec: the mixin [Timestampable] of
    [popolo/behaviors/models.py], which is not among the sources.  It keeps
    the created/modified time stamps itself and adds no constraint. *)
Definition Timestampable : pyclass := Class "Timestampable" [Model] true [] None.

(** Modelled from the spec: the mixin [Permalinkable] of
    [popolo/behaviors/models.py], which is not among the sources.  It derives
    the slug from [slug_source] at creation time and adds no constraint on
    the fields of the entity. *)
Definition Permalinkable : pyclass := Class "Permalinkable" [Model] true [] None.

(** Modelled from the spec: a well-formed partial date is [YYYY[-MM[-DD]]],
    the pattern the spec gives for every date of the schema. *)
Definition partial_date : Re.regex :=
  Re.Cat Re.Bol
    (Re.Cat (Re.Rep (Re.Cls "0" "9") 4 4)
       (Re.Cat (Re.Rep (Re.Grp (Re.Cat (Re.Chr "-") (Re.Rep (Re.Cls "0" "9") 2 2))) 0 2)
          Re.Eol)).

(** Modelled from the spec: the validation of the mixin [Dateframeable] of
    [popolo/behaviors/models.py], which is not among the sources: where both
    ends of the validity range are present, start <= end. *)
Definition Dateframeable_clean (attrs : gmap string value) : list string :=
  match default VNone (attrs !! "start_date"), default VNone (attrs !! "end_date") with
  | VStr start_date, VStr end_date =>
      if String.eqb start_date "" || String.eqb end_date "" then []
      else if str_le start_date end_date then [] else ["start_after_end"]
  | _, _ => []
  end.

(** Modelled from the spec: the mixin [Dateframeable] of
    [popolo/behaviors/models.py], which is not among the sources: the two
    optional ends of the validity range, each a well-formed partial date,
    and the range check above. *)
Definition Dateframeable : pyclass :=
  Class "Dateframeable" [Model] true
    [ validators [RegexValidator partial_date "Date has wrong format" "invalid"]
        (blank (null (CharField "start_date" 10)));
      validators [RegexValidator partial_date "Date has wrong format" "invalid"]
        (blank (null (CharField "end_date" 10))) ]
    (Some Dateframeable_clean).

End Behaviors.

(* ===================================================================== *)
(** ** popolo/models.py *)
(* ===================================================================== *)

Module Models.
Import Py Django Behaviors.

(** The state a module body runs in: its global names and the receivers it
    has connected to [pre_save]. *)
Record namespace := Namespace {
  globals : gmap string pyclass;
  pre_save : list receiver
}.

Definition empty_namespace : namespace := Namespace ∅ [].

(** Running statements: each one either completes with a new namespace or
    raises, and then the namespace is what had been executed so far. *)
Inductive outcome (A : Type) :=
| Done (a : A) (ns : namespace)
| Aborted (e : exception) (ns : namespace).
Arguments Done {A} a ns.
Arguments Aborted {A} e ns.

Definition M (A : Type) : Type := namespace -> outcome A.

#[global] Instance M_ret : MRet M := fun A a ns => Done a ns.
#[global] Instance M_bind : MBind M := fun A B k m ns =>
  match m ns with
  | Done a ns' => k a ns'
  | Aborted e ns' => Aborted e ns'
  end.

Definition raise {A} (e : exception) : M A := fun ns => Aborted e ns.

(** [class C(...): ...] and [globals()[name] = C] *)
Definition define (c : pyclass) : M unit :=
  fun ns => Done tt (Namespace (<[c_name c := c]> (globals ns)) (pre_save ns)).

(** [receiver(pre_save, sender=C)(f)] *)
Definition connect (sender : pyclass) (f : database -> instance -> result unit) : M unit :=
  fun ns => Done tt (Namespace (globals ns) (pre_save ns ++ [Receiver sender f])).

Fixpoint for_each {A} (l : list A) (body : A -> M unit) : M unit :=
  match l with
  | [] => mret tt
  | x :: l' => body x ;; for_each l' body
  end.

(** Lines 14-16 *)
Definition PopoloModel : pyclass := Class "PopoloModel" [Model] true [] None.

(** [hasattr(settings, name)] on [django.conf.settings] *)
Definition hasattr (settings : gmap string string) (name : string) : bool :=
  bool_decide (is_Some (settings !! name)).

Definition configuration_error : exception :=
  ImproperlyConfigured
    "You must configure POPOLO_APP_NAME in your settings to point to your Popolo application".

(** Lines 18-19 *)
Definition require_app_name (settings : gmap string string) : M unit :=
  if negb (hasattr settings "POPOLO_APP_NAME") then raise configuration_error
  else mret tt.

Section Schema.

(** [validate_email] and [URLValidator] of the framework, and the value of
    [settings.POPOLO_APP_NAME]. *)
Variable ext : externals.
Variable POPOLO_APP_NAME : string.

(** Line 21 *)
Definition model_path (model_name : string) : string :=
  (POPOLO_APP_NAME ++ "." ++ model_name)%string.

(** Lines 23-46.  [Choices] triples are (database value, identifier, label). *)
Definition CONTACT_TYPES : list value :=
  [VStr "FAX"; VStr "PHONE"; VStr "MOBILE"; VStr "EMAIL"; VStr "MAIL";
   VStr "TWITTER"; VStr "FACEBOOK"].

Definition ContactDetailBase : pyclass :=
  Class "ContactDetailBase" [Timestampable; Dateframeable; Model] true
    [ null (blank (CharField "label" 128));
      choices CONTACT_TYPES (CharField "contact_type" 12);
      CharField "value" 128;
      null (blank (CharField "note" 128)) ]
    None.

(** Lines 49-58 *)
Definition IdentifierBase : pyclass :=
  Class "IdentifierBase" [Model] true
    [ CharField "identifier" 128;
      null (blank (CharField "scheme" 128)) ]
    None.

(** Lines 61-69 *)
Definition LinkBase : pyclass :=
  Class "LinkBase" [Model] true
    [ URLField "url";
      null (blank (CharField "note" 128)) ]
    None.

(** Lines 72-85 *)
Definition OtherNameBase : pyclass :=
  Class "OtherNameBase" [Dateframeable; Model] true
    [ CharField "name" 128;
      blank (null (CharField "note" 256)) ]
    None.

(** Lines 88-132 *)
Record info := Info {
  info_name : string;
  info_related_name : string;
  info_base_class : pyclass
}.

Definition linked_info_types (extra_info : bool) : list info :=
  [ Info "ContactDetail" "contact_details" ContactDetailBase;
    Info "Link" "links" LinkBase;
    Info "Source" "sources" LinkBase ]
  ++ (if extra_info
      then [ Info "Identifier" "identifiers" IdentifierBase;
             Info "OtherName" "other_names" OtherNameBase ]
      else []).

(** The class built by one round of the loop (lines 121-131). *)
Definition linked_info_model (model : pyclass) (i : info) : pyclass :=
  let base_name := c_name model in
  let link_name := lower base_name in
  let class_name := (base_name ++ info_name i)%string in
  Class class_name [PopoloModel; info_base_class i] true
    [ ForeignKey link_name (model_path base_name) (Some (info_related_name i)) ]
    None.

Definition _generate_common_tables (model : pyclass) (extra_info : bool) : M unit :=
  for_each (linked_info_types extra_info)
           (fun i => define (linked_info_model model i)).

(** Lines 135-173 *)
Definition GENDERS : list value := [VInt 0; VInt 1].

Definition Person : pyclass :=
  Class "Person" [Dateframeable; Timestampable; Permalinkable; PopoloModel] true
    [ CharField "name" 128;
      blank (null (CharField "family_name" 128));
      blank (null (CharField "given_name" 128));
      blank (null (CharField "additional_name" 128));
      blank (null (CharField "honorific_prefix" 128));
      blank (null (CharField "honorific_suffix" 128));
      blank (null (CharField "patronymic_name" 128));
      blank (null (CharField "sort_name" 128));
      null (blank (EmailField "email"));
      blank (null (choices GENDERS (IntegerField "gender")));
      blank (null (CharField "birth_date" 10));
      blank (null (CharField "death_date" 10));
      blank (null (CharField "summary" 512));
      blank (null (TextField "biography"));
      null (blank (URLField "image")) ]
    None.

(** Lines 165-167 *)
Definition Person_slug_source (self : instance) : value := getattr self "name".

(** Lines 178-212 *)
Definition date_regex : Re.regex :=
  Re.Cat Re.Bol
    (Re.Cat (Re.Rep (Re.Cls "0" "9") 4 4)
       (Re.Cat (Re.Rep (Re.Grp (Re.Cat (Re.Chr "-") (Re.Rep (Re.Cls "0" "9") 2 2))) 0 2)
          Re.Eol)).

Definition Organization : pyclass :=
  Class "Organization" [Dateframeable; Timestampable; Permalinkable; PopoloModel] true
    [ CharField "name" 128;
      blank (null (CharField "classification" 128));
      null (ForeignKey "parent" (model_path "Organization") None);
      validators
        [ RegexValidator date_regex
            "dissolution date must follow the given pattern: ^[0-9]{4}(-[0-9]{2}){0,2}$"
            "invalid_dissolution_date" ]
        (null (blank (CharField "dissolution_date" 10)));
      validators
        [ RegexValidator date_regex
            "founding date must follow the given pattern: ^[0-9]{4}(-[0-9]{2}){0,2}$"
            "invalid_founding_date" ]
        (null (blank (CharField "founding_date" 10))) ]
    None.

(** Lines 204-206 *)
Definition Organization_slug_source (self : instance) : value := getattr self "name".

(** Lines 217-236 *)
Definition Post : pyclass :=
  Class "Post" [Dateframeable; Timestampable; Permalinkable; PopoloModel] true
    [ CharField "label" 128;
      blank (null (CharField "role" 128));
      ForeignKey "organization" (model_path "Organization") (Some "posts") ]
    None.

(** Lines 229-231 *)
Definition Post_slug_source (self : instance) : value := getattr self "label".

(** Lines 241-270 *)
Definition Membership : pyclass :=
  Class "Membership" [Dateframeable; Timestampable; PopoloModel] true
    [ blank (null (CharField "label" 128));
      blank (null (CharField "role" 128));
      ForeignKey "person" (model_path "Person") (Some "memberships");
      ForeignKey "organization" (model_path "Organization") (Some "memberships");
      ForeignKey "on_behalf_of" (model_path "Organization") (Some "memberships_on_behalf_of");
      null (ForeignKey "post" (model_path "Post") (Some "memberships")) ]
    None.

(** Lines 263-265 *)
Definition Membership_slug_source (self : instance) : value := getattr self "label".

(** Lines 282-284 *)
Definition validate_date_fields (db : database) (obj : instance) : result unit :=
  full_clean ext POPOLO_APP_NAME db obj.

(** The statements of the module once the setting has been found, in the
    order of the file.  The decorators of lines 279-281 apply bottom-up. *)
Definition schema_statements : M unit :=
  define ContactDetailBase ;;
  define IdentifierBase ;;
  define LinkBase ;;
  define OtherNameBase ;;
  define Person ;;
  _generate_common_tables Person true ;;
  define Organization ;;
  _generate_common_tables Organization true ;;
  define Post ;;
  _generate_common_tables Post false ;;
  define Membership ;;
  _generate_common_tables Membership false ;;
  connect Post validate_date_fields ;;
  connect Organization validate_date_fields ;;
  connect Person validate_date_fields.

(** The model classes of a namespace, as the application registry sees them. *)
Definition models_of (ns : namespace) : list pyclass :=
  (map_to_list (globals ns)).*2.

(** Lines 161-163: [self.membership_set.all()], evaluated with the models of
    [ns] installed. *)
Definition Person_memberships (ns : namespace) (db : database) (self : instance)
  : result (list instance) :=
  related_all POPOLO_APP_NAME (models_of ns) db self "membership_set".

End Schema.

(** The whole module body under the settings of the host project.  The class
    bodies read [settings.POPOLO_APP_NAME] through [model_path]; line 18 has
    made sure it is there. *)
Definition models_py (ext : externals) (settings : gmap string string) : M unit :=
  define PopoloModel ;;
  require_app_name settings ;;
  match settings !! "POPOLO_APP_NAME" with
  | Some app_name => schema_statements ext app_name
  | None => raise (AttributeError "POPOLO_APP_NAME")
  end.

Definition namespace_of {A} (o : outcome A) : namespace :=
  match o with
  | Done _ ns => ns
  | Aborted _ ns => ns
  end.

(** The namespace of the module once it has been imported in a project whose
    settings name the application [app_name]. *)
Definition loaded (ext : externals) (app_name : string) : namespace :=
  namespace_of (models_py ext {[ "POPOLO_APP_NAME" := app_name ]} empty_namespace).

(** Is a [pre_save] receiver of [ns] connected for the class [c]? *)
Definition hooked (ns : namespace) (c : pyclass) : bool :=
  match live_receivers (pre_save ns) c with
  | [] => false
  | _ :: _ => true
  end.

(** [obj.save()] once the module is loaded into [ns]. *)
Definition save (ns : namespace) (db : database) (obj : instance) : result database :=
  save_base (pre_save ns) db obj.

End Models.

(* ===================================================================== *)
(** ** The shape of a partial date *)
(* ===================================================================== *)

Import Py Django Behaviors Models.

(** What the date pattern accepts, written without the matcher:
    four digits, then at most two groups of a dash and two digits, then the
    end of the text in the sense of [$]. *)
Definition is_digit (c : ascii) : bool := Re.in_class "0" "9" c.
Definition is_dash (c : ascii) : bool := Ascii.eqb c "-".

Definition dash_two_digits (s : string) : option string :=
  match s with
  | String d (String a (String b rest)) =>
      if is_dash d && is_digit a && is_digit b then Some rest else None
  | _ => None
  end.

Definition four_digits (s : string) : option string :=
  match s with
  | String a (String b (String c (String d rest))) =>
      if is_digit a && is_digit b && is_digit c && is_digit d then Some rest else None
  | _ => None
  end.

Definition partial_date_tail (s : string) : bool :=
  Re.at_end s
  || match dash_two_digits s with
     | Some s1 =>
         Re.at_end s1
         || match dash_two_digits s1 with
            | Some s2 => Re.at_end s2
            | None => false
            end
     | None => false
     end.

Definition partial_date_text (s : string) : bool :=
  match four_digits s with
  | Some rest => partial_date_tail rest
  | None => false
  end.

(** The instances used as concrete inputs below. *)
Definition no_check : externals := Externals (fun _ => true) (fun _ => true).

Definition jane : instance :=
  Instance Person None
    {[ "name" := VStr "Jane Doe"; "death_date" := VStr "1990-02-30" ]}.

Definition undated : instance :=
  Instance (Organization "civic") None
    {[ "name" := VStr "Working group"; "parent" := VRef 1;
       "founding_date" := VStr "" ]}.

Definition council : instance :=
  Instance (Organization "civic") (Some 1)
    {[ "name" := VStr "Council"; "founding_date" := VStr "1990-02" ]}.


Definition chair : instance :=
  Instance (Post "civic") (Some 1)
    {[ "label" := VStr "Chairperson"; "organization" := VRef 1 ]}.

Definition jane_stored : instance :=
  Instance Person (Some 1) {[ "name" := VStr "Jane Doe" ]}.

Definition civic_db : database := [council; chair; jane_stored].


(** The same range on a generated side table and on a person. *)
Definition backwards_name : instance :=
  Instance (linked_info_model "civic" Person (Info "OtherName" "other_names" OtherNameBase))
    None
    {[ "name" := VStr "J. Doe"; "person" := VRef 1;
       "start_date" := VStr "2020"; "end_date" := VStr "2010" ]}.


(** A membership without person, and one with everything but a post. *)
Definition nobody : instance :=
  Instance (Membership "civic") None
    {[ "organization" := VRef 1; "on_behalf_of" := VRef 1 ]}.

Definition member : instance :=
  Instance (Membership "civic") None
    {[ "person" := VRef 1; "organization" := VRef 1; "on_behalf_of" := VRef 1 ]}.

(** A membership of the stored person. *)
Definition jane_member : instance :=
  Instance (Membership "civic") (Some 1)
    {[ "person" := VRef 1; "organization" := VRef 1; "on_behalf_of" := VRef 1 ]}.

(** The naming rule of the reverse accessors in the words of the
    specification: the kind in snake case, in the plural. *)
Definition is_upper (c : ascii) : bool :=
  (65 <=? nat_of_ascii c)%nat && (nat_of_ascii c <=? 90)%nat.

Fixpoint snake_tail (s : string) : string :=
  match s with
  | EmptyString => EmptyString
  | String c s' =>
      if is_upper c then String "_" (String (lower_char c) (snake_tail s'))
      else String c (snake_tail s')
  end.

Definition snake_case (s : string) : string :=
  match s with
  | EmptyString => EmptyString
  | String c s' => String (lower_char c) (snake_tail s')
  end.

Definition pluralized (s : string) : string := (snake_case s ++ "s")%string.

Definition is_foreign_key (f : field) : bool :=
  match f_kind f with
  | KForeignKey _ _ => true
  | _ => false
  end.

(* ===================================================================== *)
(** ** Notions used in the statements *)
(* ===================================================================== *)

(** A statement that never raises. *)
Definition completes (m : M unit) : Prop :=
  forall ns, m ns = Done tt (namespace_of (m ns)).

(** The namespace when line 18 is reached. *)
Definition at_line_18 : namespace := Namespace {[ "PopoloModel" := PopoloModel ]} [].

(** The names the loaded module defines. *)
Definition entity_names : list string := ["Person"; "Organization"; "Post"; "Membership"].

Definition defined (ns : namespace) (name : string) : bool :=
  bool_decide (is_Some (globals ns !! name)).

(** The report for a field: the checks of the field of that name, unless it
    may be blank and is empty. *)
Definition field_report (ext : externals) (app_name : string) (db : database)
           (obj : instance) (name : string) (f : field) : list string :=
  if String.eqb (f_name f) name
  then (if f_blank f && is_empty (getattr obj (f_name f)) then []
        else clean ext app_name db f (getattr obj (f_name f)))
  else [].

(** The classes the module defines, in the order of its statements. *)
Definition side_tables (app_name : string) (model : pyclass) (extra_info : bool)
  : list pyclass :=
  map (linked_info_model app_name model) (linked_info_types extra_info).

Definition module_classes (app_name : string) : list pyclass :=
  [PopoloModel; ContactDetailBase; IdentifierBase; LinkBase; OtherNameBase]
  ++ Person :: side_tables app_name Person true
  ++ Organization app_name :: side_tables app_name (Organization app_name) true
  ++ Post app_name :: side_tables app_name (Post app_name) false
  ++ Membership app_name :: side_tables app_name (Membership app_name) false.


(** The generated [ContactDetail] class of an owner, and the four owners the
    module calls the generator for. *)
Definition contact_details_of (app_name : string) (owner : pyclass) : pyclass :=
  linked_info_model app_name owner (Info "ContactDetail" "contact_details" ContactDetailBase).

Definition owners (app_name : string) : list pyclass :=
  [Person; Organization app_name; Post app_name; Membership app_name].


(** The keys the class bodies declare by hand: the model the accessor is
    installed on, its name, the model that holds the key and the key. *)
Definition declared_relations (app_name : string)
  : list (pyclass * string * pyclass * string) :=
  [ (Person, "memberships", Membership app_name, "person");
    (Organization app_name, "memberships", Membership app_name, "organization");
    (Organization app_name, "memberships_on_behalf_of", Membership app_name, "on_behalf_of");
    (Post app_name, "memberships", Membership app_name, "post");
    (Organization app_name, "posts", Post app_name, "organization");
    (Organization app_name, "organization_set", Organization app_name, "parent") ].


(** The language of the date pattern, spelled out: a year of four digits, at
    most two groups of a dash and two digits, and possibly one final newline. *)
Definition year_text (y : string) : Prop :=
  exists a b c d,
    y = String a (String b (String c (String d "")))
    /\ is_digit a = true /\ is_digit b = true /\ is_digit c = true /\ is_digit d = true.

Definition dash_group (g : string) : Prop :=
  exists a b,
    g = String "-" (String a (String b "")) /\ is_digit a = true /\ is_digit b = true.

Definition newline : string := String "010" "".

(** More inputs. *)
Definition jane_gender : instance :=
  Instance Person None {[ "name" := VStr "Jane Doe"; "gender" := VInt 0 ]}.

Definition jane_email : instance :=
  Instance (contact_details_of "civic" Person) None
    {[ "person" := VRef 1; "contact_type" := VStr "EMAIL";
       "value" := VStr "jane@example.org" ]}.


(* ===================================================================== *)
(** ** The matcher on the date pattern *)
(* ===================================================================== *)

Lemma rmatch_Cat r1 r2 pos s k :
  Re.rmatch (Re.Cat r1 r2) pos s k = Re.rmatch r1 pos s (fun p t => Re.rmatch r2 p t k).
Proof. reflexivity. Qed.

Lemma rmatch_Grp r pos s k : Re.rmatch (Re.Grp r) pos s k = Re.rmatch r pos s k.
Proof. reflexivity. Qed.

Lemma rmatch_Chr c pos s k :
  Re.rmatch (Re.Chr c) pos s k =
  match s with
  | String a s' => Ascii.eqb a c && k (S pos) s'
  | EmptyString => false
  end.
Proof. reflexivity. Qed.

Lemma rmatch_Rep r lo hi pos s k :
  Re.rmatch (Re.Rep r lo hi) pos s k = Re.rep (Re.rmatch r) lo hi pos s k.
Proof. reflexivity. Qed.

Lemma rep_S m lo hi pos s k :
  Re.rep m lo (S hi) pos s k =
  m pos s (fun p t => Re.rep m (Nat.pred lo) hi p t k) || (Nat.eqb lo 0 && k pos s).
Proof. reflexivity. Qed.

Lemma rep_0 m lo pos s k : Re.rep m lo 0 pos s k = Nat.eqb lo 0 && k pos s.
Proof. reflexivity. Qed.

(** A pattern that starts with [^] can only match at offset 0. *)
Lemma search_from_anchored r pos s :
  Re.search_from (Re.Cat Re.Bol r) (S pos) s = false.
Proof.
  revert pos. induction s as [|c s IH]; intros pos; simpl.
  - reflexivity.
  - apply IH.
Qed.

Lemma search_anchored r s :
  Re.search (Re.Cat Re.Bol r) s = Re.rmatch r 0 s (fun _ _ => true).
Proof.
  unfold Re.search. destruct s as [|c s]; simpl.
  - now rewrite orb_false_r.
  - now rewrite search_from_anchored, orb_false_r.
Qed.

Lemma rmatch_two_digits pos s k :
  Re.rmatch (Re.Rep (Re.Cls "0" "9") 2 2) pos s k =
  match s with
  | String a (String b rest) => is_digit a && is_digit b && k (S (S pos)) rest
  | _ => false
  end.
Proof.
  destruct s as [|a [|b rest]]; simpl; try reflexivity.
  - now rewrite andb_false_r.
  - unfold is_digit. now rewrite !orb_false_r, andb_assoc.
Qed.

Lemma rmatch_four_digits pos s k :
  Re.rmatch (Re.Rep (Re.Cls "0" "9") 4 4) pos s k =
  match four_digits s with
  | Some rest => k (4 + pos) rest
  | None => false
  end.
Proof.
  unfold four_digits, is_digit.
  destruct s as [|a [|b [|c [|d rest]]]]; simpl; try reflexivity;
    rewrite ?andb_false_r; try reflexivity.
  rewrite !orb_false_r.
  destruct (Re.in_class "0" "9" a), (Re.in_class "0" "9" b),
    (Re.in_class "0" "9" c), (Re.in_class "0" "9" d); reflexivity.
Qed.

Lemma rmatch_dash_two_digits pos s k :
  Re.rmatch (Re.Grp (Re.Cat (Re.Chr "-") (Re.Rep (Re.Cls "0" "9") 2 2))) pos s k =
  match dash_two_digits s with
  | Some rest => k (3 + pos) rest
  | None => false
  end.
Proof.
  rewrite rmatch_Grp, rmatch_Cat, rmatch_Chr. unfold dash_two_digits.
  destruct s as [|d s]; [reflexivity|].
  rewrite rmatch_two_digits. fold (is_dash d).
  destruct s as [|a [|b rest]]; rewrite ?andb_false_r; try reflexivity.
  destruct (is_dash d), (is_digit a), (is_digit b); reflexivity.
Qed.

(** [re.search] with the pattern of lines 190 and 197 accepts exactly the
    texts of the shape above. *)
Lemma search_date_regex s : Re.search date_regex s = partial_date_text s.
Proof.
  unfold date_regex. rewrite search_anchored, rmatch_Cat, rmatch_four_digits.
  unfold partial_date_text. destruct (four_digits s) as [rest|]; [|reflexivity].
  rewrite rmatch_Cat, rmatch_Rep, rep_S, rmatch_dash_two_digits.
  unfold partial_date_tail.
  destruct (dash_two_digits rest) as [s1|].
  - rewrite rep_S, rmatch_dash_two_digits.
    destruct (dash_two_digits s1) as [s2|]; rewrite ?rep_0;
      cbn [Re.rmatch Nat.eqb Nat.pred andb orb];
      rewrite ?andb_true_r, ?orb_false_r.
    + destruct (Re.at_end s2), (Re.at_end s1), (Re.at_end rest); reflexivity.
    + destruct (Re.at_end s1), (Re.at_end rest); reflexivity.
  - cbn [Re.rmatch Nat.eqb andb orb]. now rewrite andb_true_r, orb_false_r.
Qed.

(** The pattern prints as the source writes it. *)
Lemma show_date_regex : Re.show date_regex = "^[0-9]{4}(-[0-9]{2}){0,2}$".
Proof. reflexivity. Qed.

(* ===================================================================== *)
(** ** Loading the module *)
(* ===================================================================== *)

Lemma completes_define c : completes (define c).
Proof. intros ns. reflexivity. Qed.

Lemma completes_connect c f : completes (connect c f).
Proof. intros ns. reflexivity. Qed.

Lemma completes_seq (m k : M unit) :
  completes m -> completes k -> completes (m ;; k).
Proof.
  intros Hm Hk ns. unfold mbind, M_bind. rewrite (Hm ns). apply Hk.
Qed.

Lemma completes_for_each {A} (l : list A) body :
  (forall x, completes (body x)) -> completes (for_each l body).
Proof.
  intros Hbody. induction l as [|x l IH]; simpl.
  - intros ns. reflexivity.
  - apply completes_seq; [apply Hbody | exact IH].
Qed.

Lemma completes_generate app_name model extra_info :
  completes (_generate_common_tables app_name model extra_info).
Proof. apply completes_for_each. intros i. apply completes_define. Qed.

(** Once the setting is there, no statement of the module raises. *)
Lemma schema_statements_done ext app_name : completes (schema_statements ext app_name).
Proof.
  unfold schema_statements.
  repeat (apply completes_seq;
    [ first [ apply completes_define | apply completes_generate
            | apply completes_connect ] | ]).
  apply completes_connect.
Qed.

Lemma models_py_unfold ext settings :
  models_py ext settings empty_namespace =
  match settings !! "POPOLO_APP_NAME" with
  | Some app_name => schema_statements ext app_name at_line_18
  | None => Aborted configuration_error at_line_18
  end.
Proof.
  unfold models_py, require_app_name, hasattr, mbind, M_bind, define.
  cbn [globals pre_save empty_namespace].
  destruct (settings !! "POPOLO_APP_NAME") as [app_name|] eqn:Hset.
  - rewrite bool_decide_eq_true_2 by eauto. reflexivity.
  - rewrite bool_decide_eq_false_2 by (intros [? ?]; discriminate). reflexivity.
Qed.

Lemma loaded_unfold ext app_name :
  loaded ext app_name = namespace_of (schema_statements ext app_name at_line_18).
Proof.
  unfold loaded. rewrite models_py_unfold, lookup_singleton_eq. reflexivity.
Qed.

Lemma models_py_run ext settings :
  models_py ext settings empty_namespace =
  match settings !! "POPOLO_APP_NAME" with
  | Some app_name => Done tt (loaded ext app_name)
  | None => Aborted configuration_error at_line_18
  end.
Proof.
  rewrite models_py_unfold.
  destruct (settings !! "POPOLO_APP_NAME") as [app_name|]; [|reflexivity].
  rewrite loaded_unfold. apply schema_statements_done.
Qed.

Ltac run_module :=
  rewrite loaded_unfold;
  cbv [schema_statements at_line_18 mbind M_bind define connect
       _generate_common_tables for_each linked_info_types namespace_of
       pre_save globals mret M_ret Datatypes.app].

Lemma pre_save_loaded ext app_name :
  pre_save (loaded ext app_name) =
  [ Receiver (Post app_name) (validate_date_fields ext app_name);
    Receiver (Organization app_name) (validate_date_fields ext app_name);
    Receiver Person (validate_date_fields ext app_name) ].
Proof. run_module. reflexivity. Qed.

Lemma defined_loaded_entities ext app_name :
  forallb (defined (loaded ext app_name)) entity_names = true.
Proof. rewrite loaded_unfold. vm_compute. reflexivity. Qed.

(** C4.  Without [POPOLO_APP_NAME] in the settings, importing the module
    raises [ImproperlyConfigured] with the message of line 19 when only
    [PopoloModel] has been defined, so before any entity type (or any other
    class) exists; with the setting, the import completes without error and
    defines the four entity types. *)
Theorem C4_app_name_required ext settings :
  models_py ext settings empty_namespace =
    (if hasattr settings "POPOLO_APP_NAME"
     then Done tt (namespace_of (models_py ext settings empty_namespace))
     else Aborted
            (ImproperlyConfigured
               "You must configure POPOLO_APP_NAME in your settings to point to your Popolo application")
            (Namespace {[ "PopoloModel" := PopoloModel ]} []))
  /\ (if hasattr settings "POPOLO_APP_NAME"
      then forallb (defined (namespace_of (models_py ext settings empty_namespace)))
             entity_names = true
      else existsb (defined (namespace_of (models_py ext settings empty_namespace)))
             entity_names = false).
Proof.
  rewrite models_py_run. unfold hasattr.
  destruct (settings !! "POPOLO_APP_NAME") as [app_name|] eqn:Hset.
  - rewrite bool_decide_eq_true_2 by eauto. cbn [namespace_of].
    split; [reflexivity | apply defined_loaded_entities].
  - rewrite bool_decide_eq_false_2 by (intros [? ?]; discriminate).
    split; [reflexivity | vm_compute; reflexivity].
Qed.

(* ===================================================================== *)
(** ** What validation reports for one field *)
(* ===================================================================== *)

Lemma errors_for_app name a b :
  errors_for name (a ++ b) = errors_for name a ++ errors_for name b.
Proof. unfold errors_for. apply flat_map_app. Qed.

Lemma errors_for_clean_field ext app_name db obj name f :
  errors_for name (clean_field ext app_name db obj f) =
  field_report ext app_name db obj name f.
Proof.
  unfold clean_field, field_report.
  destruct (f_blank f && is_empty (getattr obj (f_name f))).
  - now destruct (String.eqb (f_name f) name).
  - destruct (clean ext app_name db f (getattr obj (f_name f))) as [|e l].
    + now destruct (String.eqb (f_name f) name).
    + cbn. destruct (String.eqb (f_name f) name); [apply app_nil_r | reflexivity].
Qed.

Lemma errors_for_clean_fields ext app_name db obj name fs :
  errors_for name (flat_map (clean_field ext app_name db obj) fs) =
  flat_map (field_report ext app_name db obj name) fs.
Proof.
  induction fs as [|f fs IH]; [reflexivity|].
  cbn [flat_map]. now rewrite errors_for_app, errors_for_clean_field, IH.
Qed.

Lemma field_errors_report ext app_name db obj name :
  String.eqb "__all__" name = false ->
  field_errors ext app_name db obj name =
  flat_map (field_report ext app_name db obj name) (meta_fields (i_class obj)).
Proof.
  intros Hname. unfold field_errors, full_clean_errors, clean_fields.
  rewrite errors_for_app, errors_for_clean_fields.
  destruct (resolve_clean (i_class obj) (i_attrs obj)) as [|e l];
    unfold errors_for; cbn [flat_map fst snd].
  - apply app_nil_r.
  - rewrite Hname. apply app_nil_r.
Qed.


Ltac fields_of_class H :=
  rewrite H;
  cbn [meta_fields Organization Person Post Membership flat_map Dateframeable
       Timestampable Permalinkable PopoloModel Model Datatypes.app].

(** [Field.clean] on a text held by a blank-able [CharField] without
    choices: nothing for the empty text, else the validators. *)
Lemma clean_text ext app_name db f s :
  f_kind f = KChar -> f_choices f = [] -> f_blank f = true ->
  clean ext app_name db f (VStr s) =
  if String.eqb s "" then []
  else flat_map (fun vd => run_validator ext vd s) (field_validators f).
Proof.
  intros Hkind Hchoices Hblank.
  unfold clean, well_typed, validate, has_choices, validate_related, run_validators.
  rewrite Hkind, Hchoices, Hblank. cbn [negb andb value_eqb is_empty].
  destruct (String.eqb s ""); reflexivity.
Qed.

Ltac text_report Hval :=
  unfold field_report; cbn [f_name f_blank validators null blank CharField
    String.eqb Ascii.eqb Bool.eqb andb Datatypes.app];
  rewrite Hval; cbn [is_empty];
  rewrite clean_text by reflexivity;
  cbn [flat_map run_validator field_validators f_kind f_validators f_max_length
       validators null blank CharField Datatypes.app];
  destruct (String.eqb _ ""); rewrite ?app_nil_r; reflexivity.

(** The checks a date of an [Organization] goes through. *)
Lemma organization_date_report ext app_name db obj name s :
  i_class obj = Organization app_name ->
  name = "founding_date" \/ name = "dissolution_date" ->
  getattr obj name = VStr s ->
  field_errors ext app_name db obj name =
  if String.eqb s "" then []
  else (if Re.search date_regex s then [] else [("invalid_" ++ name)%string])
       ++ (if (10 <? len s)%nat then ["max_length"] else []).
Proof.
  intros Hcls Hname Hval.
  rewrite field_errors_report by (destruct Hname; subst; reflexivity).
  fields_of_class Hcls.
  destruct Hname; subst name; text_report Hval.
Qed.

(** The checks a date of a [Person] goes through: the length only. *)
Lemma person_date_report ext app_name db obj name s :
  i_class obj = Person ->
  name = "birth_date" \/ name = "death_date" ->
  getattr obj name = VStr s ->
  field_errors ext app_name db obj name =
  if String.eqb s "" then []
  else if (10 <? len s)%nat then ["max_length"] else [].
Proof.
  intros Hcls Hname Hval.
  rewrite field_errors_report by (destruct Hname; subst; reflexivity).
  fields_of_class Hcls.
  destruct Hname; subst name; text_report Hval.
Qed.

(** C1 (amended).  For an [Organization], a [founding_date] or
    [dissolution_date] that holds a text passes validation exactly when the
    text is empty (the fields are [blank=True]) or [re.search] finds the
    pattern [^[0-9]{4}(-[0-9]{2}){0,2}$] in it and it has at most ten
    characters ([max_length=10]). *)
Theorem C1_organization_dates ext app_name db obj name s :
  i_class obj = Organization app_name ->
  name = "founding_date" \/ name = "dissolution_date" ->
  getattr obj name = VStr s ->
  (field_errors ext app_name db obj name = [] <->
   s = "" \/ (Re.search date_regex s = true /\ (len s <= 10)%nat)).
Proof.
  intros Hcls Hname Hval.
  rewrite (organization_date_report ext app_name db obj name s Hcls Hname Hval).
  destruct (String.eqb_spec s "") as [->|Hne].
  - split; [now left | reflexivity].
  - destruct (Re.search date_regex s); destruct (Nat.ltb_spec 10 (len s)); cbn.
    + split; [discriminate | intros [?|[_ ?]]; [congruence | lia]].
    + split; [intros _; right; split; [reflexivity | lia] | reflexivity].
    + split; [discriminate | intros [?|[? _]]; congruence].
    + split; [discriminate | intros [?|[? _]]; congruence].
Qed.

Lemma C1_organization_dates_witness :
  i_class council = Organization "civic"
  /\ getattr council "founding_date" = VStr "1990-02"
  /\ (field_errors no_check "civic" [] council "founding_date" = [] <->
      "1990-02" = "" \/
      (Re.search date_regex "1990-02" = true /\ (len "1990-02" <= 10)%nat)).
Proof.
  split; [reflexivity|]. split; [reflexivity|].
  apply (C1_organization_dates no_check "civic" [] council "founding_date" "1990-02").
  - reflexivity.
  - left; reflexivity.
  - reflexivity.
Defined.

(** C1 as stated fails on an [Organization] whose [founding_date] is the
    empty text: the text is present and does not match the pattern, and
    validation accepts it (the whole object passes [full_clean]). *)
Lemma C1_counterexample :
  getattr undated "founding_date" = VStr ""
  /\ full_clean no_check "civic" civic_db undated = Ok tt
  /\ ~ (field_errors no_check "civic" civic_db undated "founding_date" = [] <->
        Re.search date_regex "" = true).
Proof.
  split; [reflexivity|]. split; [vm_compute; reflexivity|].
  intros [Hacc _].
  assert (Hno : Re.search date_regex "" = false) by reflexivity.
  rewrite Hacc in Hno; [discriminate|].
  vm_compute. reflexivity.
Qed.

(** The dates of a [Person] carry no pattern check: any text of at most ten
    characters passes. *)
Lemma person_dates_unchecked ext app_name db obj name s :
  i_class obj = Person ->
  name = "birth_date" \/ name = "death_date" ->
  getattr obj name = VStr s ->
  (len s <= 10)%nat ->
  field_errors ext app_name db obj name = [].
Proof.
  intros Hcls Hname Hval Hlen.
  rewrite (person_date_report ext app_name db obj name s Hcls Hname Hval).
  destruct (String.eqb s ""); [reflexivity|].
  destruct (Nat.ltb_spec 10 (len s)); [lia | reflexivity].
Qed.

(* ===================================================================== *)
(** ** Saving through the loaded module *)
(* ===================================================================== *)

Lemma hooked_loaded ext app_name c :
  hooked (loaded ext app_name) c =
  String.eqb "Post" (c_name c) || String.eqb "Organization" (c_name c)
  || String.eqb "Person" (c_name c).
Proof.
  unfold hooked, live_receivers. rewrite pre_save_loaded.
  cbn [List.filter r_sender c_name Post Organization Person].
  destruct (String.eqb "Post" (c_name c)), (String.eqb "Organization" (c_name c)),
    (String.eqb "Person" (c_name c)); reflexivity.
Qed.

(** What [pre_save] does in the loaded module: [full_clean] for the classes a
    receiver is connected for, nothing for the others. *)
Lemma send_loaded ext app_name db obj :
  send (pre_save (loaded ext app_name)) (i_class obj) db obj =
  if hooked (loaded ext app_name) (i_class obj)
  then full_clean ext app_name db obj
  else Ok tt.
Proof.
  rewrite hooked_loaded, pre_save_loaded.
  cbn [send r_sender r_func c_name Post Organization Person].
  unfold validate_date_fields.
  destruct (String.eqb "Post" (c_name (i_class obj))),
    (String.eqb "Organization" (c_name (i_class obj))),
    (String.eqb "Person" (c_name (i_class obj)));
    cbn [orb]; destruct (full_clean ext app_name db obj) as [[]|e]; reflexivity.
Qed.

Lemma save_loaded ext app_name db obj :
  save (loaded ext app_name) db obj =
  if hooked (loaded ext app_name) (i_class obj)
  then bind (full_clean ext app_name db obj) (fun _ => save_table db obj)
  else save_table db obj.
Proof.
  unfold save, save_base. rewrite send_loaded.
  destruct (hooked (loaded ext app_name) (i_class obj)); reflexivity.
Qed.



(* ===================================================================== *)
(** ** Memberships *)
(* ===================================================================== *)

(** The [NOT NULL] columns of a membership, in the order the INSERT meets
    them. *)
Lemma membership_not_null app_name obj :
  i_class obj = Membership app_name ->
  not_null_violation obj =
  if value_eqb (getattr obj "person") VNone then Some "person"
  else if value_eqb (getattr obj "organization") VNone then Some "organization"
  else if value_eqb (getattr obj "on_behalf_of") VNone then Some "on_behalf_of"
  else None.
Proof.
  intros Hcls. unfold not_null_violation. fields_of_class Hcls.
  cbn [List.find f_null f_name validators null blank CharField ForeignKey negb andb].
  destruct (value_eqb (getattr obj "person") VNone); [reflexivity|].
  destruct (value_eqb (getattr obj "organization") VNone); [reflexivity|].
  destruct (value_eqb (getattr obj "on_behalf_of") VNone); reflexivity.
Qed.

Lemma value_eqb_none v : value_eqb v VNone = true <-> v = VNone.
Proof. destruct v; cbn; split; intros H; congruence. Qed.

Lemma membership_unhooked ext app_name :
  hooked (loaded ext app_name) (Membership app_name) = false.
Proof. rewrite hooked_loaded. reflexivity. Qed.

(** A required relation left empty is reported as [null] by validation. *)
Lemma membership_null_report ext app_name db obj column :
  i_class obj = Membership app_name ->
  In column ["person"; "organization"; "on_behalf_of"] ->
  getattr obj column = VNone ->
  field_errors ext app_name db obj column = ["null"].
Proof.
  intros Hcls Hcol Hval.
  rewrite field_errors_report
    by (destruct Hcol as [<-|[<-|[<-|[]]]]; reflexivity).
  fields_of_class Hcls.
  destruct Hcol as [<-|[<-|[<-|[]]]]; unfold field_report;
    cbn [f_name f_blank validators null blank CharField ForeignKey
         String.eqb Ascii.eqb Bool.eqb andb Datatypes.app];
    rewrite Hval; reflexivity.
Qed.

(** C7.  [person], [organization] and [on_behalf_of] of a [Membership] are
    declared without [null=True] and [post] with it.  A membership that leaves
    one of the three empty is not persisted: the save raises on that column
    (and validation reports it as [null]); with the three present the row is
    written whatever [post] holds. *)
Theorem C7_membership_relations ext app_name db obj :
  i_class obj = Membership app_name ->
  map (fun f => (f_name f, f_null f))
      (List.filter is_foreign_key (c_fields (Membership app_name)))
  = [("person", false); ("organization", false); ("on_behalf_of", false); ("post", true)]
  /\ (getattr obj "person" = VNone \/ getattr obj "organization" = VNone
      \/ getattr obj "on_behalf_of" = VNone ->
      exists column,
        In column ["person"; "organization"; "on_behalf_of"]
        /\ getattr obj column = VNone
        /\ save (loaded ext app_name) db obj = Raise (IntegrityError column)
        /\ field_errors ext app_name db obj column = ["null"])
  /\ (getattr obj "person" <> VNone -> getattr obj "organization" <> VNone ->
      getattr obj "on_behalf_of" <> VNone ->
      save (loaded ext app_name) db obj = Ok (store db obj)).
Proof.
  intros Hcls. split; [reflexivity|].
  assert (Hsave : save (loaded ext app_name) db obj = save_table db obj).
  { rewrite save_loaded, Hcls, membership_unhooked. reflexivity. }
  rewrite Hsave. unfold save_table. rewrite (membership_not_null app_name obj Hcls).
  split.
  - intros Hmissing.
    destruct (value_eqb (getattr obj "person") VNone) eqn:Hp.
    { apply value_eqb_none in Hp. exists "person".
      split; [cbn; auto|]. split; [exact Hp|]. split; [reflexivity|].
      apply (membership_null_report ext app_name db obj "person"); cbn; auto. }
    destruct (value_eqb (getattr obj "organization") VNone) eqn:Ho.
    { apply value_eqb_none in Ho. exists "organization".
      split; [cbn; auto|]. split; [exact Ho|]. split; [reflexivity|].
      apply (membership_null_report ext app_name db obj "organization"); cbn; auto. }
    destruct (value_eqb (getattr obj "on_behalf_of") VNone) eqn:Hb.
    { apply value_eqb_none in Hb. exists "on_behalf_of".
      split; [cbn; auto|]. split; [exact Hb|]. split; [reflexivity|].
      apply (membership_null_report ext app_name db obj "on_behalf_of"); cbn; auto. }
    exfalso. destruct Hmissing as [H|[H|H]]; rewrite H in *; discriminate.
  - intros Hp Ho Hb.
    destruct (value_eqb (getattr obj "person") VNone) eqn:Ep;
      [apply value_eqb_none in Ep; contradiction|].
    destruct (value_eqb (getattr obj "organization") VNone) eqn:Eo;
      [apply value_eqb_none in Eo; contradiction|].
    destruct (value_eqb (getattr obj "on_behalf_of") VNone) eqn:Eb;
      [apply value_eqb_none in Eb; contradiction|].
    reflexivity.
Qed.

Lemma C7_membership_relations_witness :
  i_class nobody = Membership "civic"
  /\ getattr nobody "person" = VNone
  /\ (exists column,
        In column ["person"; "organization"; "on_behalf_of"]
        /\ getattr nobody column = VNone
        /\ save (loaded no_check "civic") civic_db nobody = Raise (IntegrityError column)
        /\ field_errors no_check "civic" civic_db nobody column = ["null"])
  /\ getattr member "post" = VNone
  /\ save (loaded no_check "civic") civic_db member = Ok (store civic_db member).
Proof.
  split; [reflexivity|]. split; [reflexivity|]. split.
  - apply (proj1 (proj2 (C7_membership_relations no_check "civic" civic_db nobody
                           eq_refl))).
    left. reflexivity.
  - split; [reflexivity|].
    apply (proj2 (proj2 (C7_membership_relations no_check "civic" civic_db member
                           eq_refl))); vm_compute; discriminate.
Defined.


(* ===================================================================== *)
(** ** Shape, not calendar *)
(* ===================================================================== *)

(** C9.  [1990-02-30] matches the date pattern, so the validators of lines
    188-201 accept it; a [Person] with that [death_date] passes validation
    and is saved.  Nothing looks at the calendar. *)
Theorem C9_date_check_is_shape_only ext app_name db :
  Re.search date_regex "1990-02-30" = true
  /\ run_validator ext
       (RegexValidator date_regex
          "dissolution date must follow the given pattern: ^[0-9]{4}(-[0-9]{2}){0,2}$"
          "invalid_dissolution_date") "1990-02-30" = []
  /\ field_errors ext app_name db jane "death_date" = []
  /\ full_clean ext app_name db jane = Ok tt
  /\ save (loaded ext app_name) db jane = Ok (store db jane).
Proof.
  assert (Hclean : full_clean ext app_name db jane = Ok tt) by (vm_compute; reflexivity).
  split; [reflexivity|]. split; [reflexivity|].
  split; [vm_compute; reflexivity|]. split; [exact Hclean|].
  rewrite save_loaded, hooked_loaded, Hclean. reflexivity.
Qed.

(* ===================================================================== *)
(** ** Slugs *)
(* ===================================================================== *)

(** C3 (amended).  [Person], [Organization] and [Post] inherit
    [Permalinkable]; [Membership] does not.  All four define [slug_source]:
    the [name] of a person or organization, the [label] of a post or
    membership. *)
Theorem C3_slug_sources app_name (obj : instance) :
  map c_name (c_bases Person)
  = ["Dateframeable"; "Timestampable"; "Permalinkable"; "PopoloModel"]
  /\ map c_name (c_bases (Organization app_name))
     = ["Dateframeable"; "Timestampable"; "Permalinkable"; "PopoloModel"]
  /\ map c_name (c_bases (Post app_name))
     = ["Dateframeable"; "Timestampable"; "Permalinkable"; "PopoloModel"]
  /\ map c_name (c_bases (Membership app_name))
     = ["Dateframeable"; "Timestampable"; "PopoloModel"]
  /\ issubclass Person "Permalinkable" = true
  /\ issubclass (Organization app_name) "Permalinkable" = true
  /\ issubclass (Post app_name) "Permalinkable" = true
  /\ issubclass (Membership app_name) "Permalinkable" = false
  /\ Person_slug_source obj = getattr obj "name"
  /\ Organization_slug_source obj = getattr obj "name"
  /\ Post_slug_source obj = getattr obj "label"
  /\ Membership_slug_source obj = getattr obj "label".
Proof. repeat split; reflexivity. Qed.

(** C3 as stated fails on [Membership]: it is not among the classes that
    carry the permalink mixin. *)
Lemma C3_counterexample :
  ~ (forallb (fun c => issubclass c "Permalinkable")
       [Person; Organization "civic"; Post "civic"; Membership "civic"] = true).
Proof. vm_compute. discriminate. Qed.

(* ===================================================================== *)
(** ** The generated side tables *)
(* ===================================================================== *)

Lemma append_inj (x a b : string) : (x ++ a)%string = (x ++ b)%string -> a = b.
Proof.
  induction x as [|c x IH]; cbn; intros H; [exact H|].
  injection H as H. auto.
Qed.

(** The loop of lines 120-132 writes one class per kind into the globals. *)
Lemma generate_run app_name model extra_info ns :
  _generate_common_tables app_name model extra_info ns =
  Done tt
    (Namespace
       (foldl (fun g i => <[c_name (linked_info_model app_name model i)
                            := linked_info_model app_name model i]> g)
              (globals ns) (linked_info_types extra_info))
       (pre_save ns)).
Proof.
  unfold _generate_common_tables.
  revert ns. induction (linked_info_types extra_info) as [|i l IH]; intros ns.
  - destruct ns. reflexivity.
  - cbn [for_each foldl]. unfold mbind, M_bind, define at 1. rewrite IH. reflexivity.
Qed.

Ltac find_class :=
  repeat first
    [ apply lookup_insert_eq
    | rewrite lookup_insert_ne
        by (let H := fresh in intros H; apply append_inj in H; discriminate) ].

(** C5.  For an owner class [model] and each kind the generator handles, the
    class written is named owner + kind; its one declared field is a foreign
    key to the owner, named by the owner's name in lower case and not
    nullable; the reverse accessor is the [related_name] of the kind, which is
    the kind in snake case and in the plural. *)
Theorem C5_generated_names app_name model extra_info i ns :
  In i (linked_info_types extra_info) ->
  let generated := linked_info_model app_name model i in
  globals (namespace_of (_generate_common_tables app_name model extra_info ns))
    !! (c_name model ++ info_name i)%string = Some generated
  /\ c_name generated = (c_name model ++ info_name i)%string
  /\ c_fields generated =
       [ForeignKey (lower (c_name model)) (model_path app_name (c_name model))
                   (Some (info_related_name i))]
  /\ Forall (fun f => f_null f = false) (c_fields generated)
  /\ Forall (fun f => get_accessor_name generated f
                      = Some (model_path app_name (c_name model), info_related_name i))
            (c_fields generated)
  /\ info_related_name i = pluralized (info_name i)
  /\ In (info_related_name i)
        ["contact_details"; "links"; "sources"; "identifiers"; "other_names"].
Proof.
  intros Hin generated. subst generated.
  rewrite generate_run. cbn [namespace_of globals].
  split.
  { destruct extra_info; cbn [linked_info_types Datatypes.app foldl] in *;
      cbn [linked_info_model c_name info_name];
      repeat (destruct Hin as [<-|Hin]; [cbn [info_name]; find_class|]);
      destruct Hin. }
  split; [reflexivity|]. split; [reflexivity|].
  split; [repeat constructor|]. split; [repeat constructor|].
  destruct extra_info; cbn [linked_info_types Datatypes.app] in Hin;
    repeat (destruct Hin as [<-|Hin]; [split; [reflexivity | cbn; auto 10]|]);
    destruct Hin.
Qed.

Lemma C5_generated_names_witness :
  In (Info "ContactDetail" "contact_details" ContactDetailBase) (linked_info_types true)
  /\ globals (namespace_of (_generate_common_tables "civic" Person true empty_namespace))
       !! "PersonContactDetail"
     = Some (linked_info_model "civic" Person
               (Info "ContactDetail" "contact_details" ContactDetailBase))
  /\ c_fields (linked_info_model "civic" Person
                 (Info "ContactDetail" "contact_details" ContactDetailBase))
     = [ForeignKey "person" "civic.Person" (Some "contact_details")].
Proof.
  assert (Hin : In (Info "ContactDetail" "contact_details" ContactDetailBase)
                   (linked_info_types true)) by (left; reflexivity).
  split; [exact Hin|].
  pose proof (C5_generated_names "civic" Person true
                (Info "ContactDetail" "contact_details" ContactDetailBase)
                empty_namespace Hin) as H.
  cbv zeta in H. destruct H as (Hlookup & _ & Hfields & _).
  split; [exact Hlookup | exact Hfields].
Defined.

(** Every class of the module is abstract. *)
Lemma module_classes_abstract app_name :
  forallb c_abstract (module_classes app_name) = true.
Proof. reflexivity. Qed.

Lemma globals_loaded ext app_name :
  globals (loaded ext app_name) =
  foldl (fun g c => <[c_name c := c]> g) ∅ (module_classes app_name).
Proof. run_module. reflexivity. Qed.


(* ===================================================================== *)
(** ** The memberships of a person *)
(* ===================================================================== *)


(** The accessor the key declares does return the memberships of the
    person. *)
Lemma memberships_accessor :
  related_all "civic" (models_of (loaded no_check "civic"))
    (civic_db ++ [jane_member]) jane_stored "memberships" = Ok [jane_member]
  /\ Person_memberships "civic" (loaded no_check "civic")
       (civic_db ++ [jane_member]) jane_stored = Raise (AttributeError "membership_set").
Proof. split; vm_compute; reflexivity. Qed.

(* ===================================================================== *)
(** ** The language of the date pattern *)
(* ===================================================================== *)

Lemma at_end_spec s : Re.at_end s = true <-> s = "" \/ s = newline.
Proof.
  unfold newline. destruct s as [|c [|c' s]]; cbn.
  - split; auto.
  - rewrite Ascii.eqb_eq. split; [intros ->; auto | intros [?|[= ->]]; congruence].
  - split; [discriminate | intros [?|?]; discriminate].
Qed.

Lemma dash_two_digits_spec s rest :
  dash_two_digits s = Some rest <-> exists g, dash_group g /\ s = (g ++ rest)%string.
Proof.
  unfold dash_two_digits, dash_group, is_dash. split.
  - destruct s as [|d [|a [|b s]]]; try discriminate.
    destruct (Ascii.eqb_spec d "-") as [->|]; [|discriminate].
    destruct (is_digit a) eqn:Ha; [|discriminate].
    destruct (is_digit b) eqn:Hb; [|discriminate].
    cbn. intros [= <-]. exists (String "-" (String a (String b ""))).
    split; [exists a, b; auto | reflexivity].
  - intros (g & (a & b & -> & Ha & Hb) & ->). cbv [String.append].
    rewrite Ha, Hb. reflexivity.
Qed.

Lemma four_digits_spec s rest :
  four_digits s = Some rest <-> exists y, year_text y /\ s = (y ++ rest)%string.
Proof.
  unfold four_digits, year_text. split.
  - destruct s as [|a [|b [|c [|d s]]]]; try discriminate.
    destruct (is_digit a) eqn:Ha; [|discriminate].
    destruct (is_digit b) eqn:Hb; [|discriminate].
    destruct (is_digit c) eqn:Hc; [|discriminate].
    destruct (is_digit d) eqn:Hd; [|discriminate].
    cbn. intros [= <-]. exists (String a (String b (String c (String d "")))).
    split; [exists a, b, c, d; auto | reflexivity].
  - intros (y & (a & b & c & d & -> & Ha & Hb & Hc & Hd) & ->). cbv [String.append].
    rewrite Ha, Hb, Hc, Hd. reflexivity.
Qed.

(** X1.  [re.search] finds the pattern of lines 190 and 197 in a text exactly
    when the text is a year of four digits, followed by at most two groups of a
    dash and two digits, followed by nothing or by one newline: the pattern is
    anchored at both ends, and [$] lets a final newline through. *)
Theorem X1_date_regex_language s :
  Re.search date_regex s = true <->
  exists y groups nl,
    s = (y ++ String.concat "" groups ++ nl)%string
    /\ year_text y /\ Forall dash_group groups /\ length groups <= 2
    /\ (nl = "" \/ nl = newline).
Proof.
  rewrite search_date_regex. unfold partial_date_text, partial_date_tail. split.
  - destruct (four_digits s) as [rest|] eqn:Hy; [|discriminate].
    apply four_digits_spec in Hy as (y & Hyear & ->).
    intros H. apply orb_true_iff in H as [Hend|H].
    { apply at_end_spec in Hend. exists y, [], rest. cbn. repeat split; auto. }
    destruct (dash_two_digits rest) as [s1|] eqn:H1; [|discriminate].
    apply dash_two_digits_spec in H1 as (g1 & Hg1 & ->).
    apply orb_true_iff in H as [Hend|H].
    { apply at_end_spec in Hend. exists y, [g1], s1. cbn.
      repeat split; auto. }
    destruct (dash_two_digits s1) as [s2|] eqn:H2; [|discriminate].
    apply dash_two_digits_spec in H2 as (g2 & Hg2 & ->).
    apply at_end_spec in H. exists y, [g1; g2], s2.
    split; [|repeat split; auto].
    destruct Hg1 as (a1 & b1 & -> & _), Hg2 as (a2 & b2 & -> & _).
    destruct Hyear as (a & b & c & d & -> & _). reflexivity.
  - intros (y & groups & nl & -> & (a & b & c & d & -> & Ha & Hb & Hc & Hd)
            & Hgroups & Hlen & Hnl).
    destruct groups as [|g1 [|g2 [|g3 groups]]]; [ | | |cbn in Hlen; lia];
      repeat match goal with
             | H : Forall _ (_ :: _) |- _ =>
                 apply Forall_cons in H as [(? & ? & -> & ? & ?) H]
             end;
      destruct Hnl as [->| ->];
      unfold four_digits, dash_two_digits, is_dash, newline;
      cbv [String.append String.concat];
      repeat (progress (cbn -[is_digit];
                repeat match goal with H : is_digit _ = true |- _ => rewrite H end));
      reflexivity.
Qed.

(* ===================================================================== *)
(** ** What validation asks of the declared fields *)
(* ===================================================================== *)

Ltac fields_of_generated H :=
  rewrite H;
  cbn [meta_fields contact_details_of linked_info_model ContactDetailBase LinkBase
       IdentifierBase OtherNameBase info_base_class info_name info_related_name
       Organization Person Post Membership flat_map Dateframeable
       Timestampable Permalinkable PopoloModel Model Datatypes.app c_name].

Ltac report_of :=
  unfold field_report;
  cbn [f_name f_blank f_null validators null blank choices CharField ForeignKey
       EmailField URLField IntegerField TextField lower lower_char
       String.eqb Ascii.eqb Bool.eqb andb Datatypes.app].

(** [Field.clean] on a [CharField] that is neither blank-able nor has
    choices. *)
Lemma clean_required_text ext app_name db f v :
  f_kind f = KChar -> f_choices f = [] -> f_blank f = false -> f_null f = false ->
  f_validators f = [] -> f_max_length f = Some 128 ->
  clean ext app_name db f v =
  match v with
  | VNone => ["null"]
  | VStr s => if String.eqb s "" then ["blank"]
              else if (128 <? len s)%nat then ["max_length"] else []
  | _ => ["invalid"]
  end.
Proof.
  intros Hkind Hchoices Hblank Hnull Hvals Hmax.
  unfold clean, well_typed, validate, has_choices, validate_related, run_validators,
    field_validators.
  rewrite Hkind, Hchoices, Hblank, Hnull, Hvals, Hmax.
  destruct v as [|s| |]; cbn [negb andb value_eqb is_empty]; try reflexivity.
  destruct (String.eqb s ""); cbn [flat_map run_validator Datatypes.app];
    [reflexivity|].
  destruct (128 <? len s)%nat; reflexivity.
Qed.




(** [Field.clean] on the values an integer field with choices can hold. *)
Lemma gender_report ext app_name db obj :
  i_class obj = Person ->
  field_errors ext app_name db obj "gender" =
  match getattr obj "gender" with
  | VNone => []
  | VInt z => if existsb (value_eqb (VInt z)) GENDERS then [] else ["invalid_choice"]
  | VStr s => if String.eqb s "" then [] else ["invalid"]
  | VRef _ => ["invalid"]
  end.
Proof.
  intros Hcls. rewrite field_errors_report by reflexivity.
  fields_of_class Hcls. report_of.
  destruct (getattr obj "gender") as [|s|z|pk]; cbn [is_empty]; try reflexivity.
  - destruct (String.eqb s ""); reflexivity.
  - unfold clean, well_typed, validate, has_choices, validate_related, run_validators.
    cbn [f_kind f_choices null blank choices IntegerField GENDERS negb andb is_empty].
    destruct (existsb (value_eqb (VInt z)) GENDERS); reflexivity.
Qed.

(** X4.  [Person.gender] is optional; an integer passes exactly when it is
    one of the two [GENDERS], 0 or 1. *)
Theorem X4_gender_choices ext app_name db obj :
  i_class obj = Person ->
  (getattr obj "gender" = VNone -> field_errors ext app_name db obj "gender" = [])
  /\ (forall z, getattr obj "gender" = VInt z ->
        (field_errors ext app_name db obj "gender" = [] <-> z = 0%Z \/ z = 1%Z)).
Proof.
  intros Hcls. rewrite (gender_report ext app_name db obj Hcls). split.
  - intros ->. reflexivity.
  - intros z ->. cbn [existsb GENDERS value_eqb].
    destruct (Z.eqb_spec z 0) as [->|H0]; [split; auto|].
    destruct (Z.eqb_spec z 1) as [->|H1]; [split; auto|].
    cbn. split; [discriminate | intros [?|?]; contradiction].
Qed.

Lemma X4_gender_choices_witness :
  i_class jane_gender = Person
  /\ getattr jane_gender "gender" = VInt 0
  /\ (field_errors no_check "civic" [] jane_gender "gender" = [] <-> 0%Z = 0%Z \/ 0%Z = 1%Z).
Proof.
  split; [reflexivity|]. split; [reflexivity|].
  apply (proj2 (X4_gender_choices no_check "civic" [] jane_gender eq_refl)).
  reflexivity.
Defined.

Lemma contact_type_report ext app_name db obj owner s :
  In owner (owners app_name) ->
  i_class obj = contact_details_of app_name owner ->
  getattr obj "contact_type" = VStr s ->
  field_errors ext app_name db obj "contact_type" =
  if String.eqb s "" then ["blank"]
  else if existsb (value_eqb (VStr s)) CONTACT_TYPES then
         (if (12 <? len s)%nat then ["max_length"] else [])
       else ["invalid_choice"].
Proof.
  intros Howner Hcls Hval. rewrite field_errors_report by reflexivity.
  unfold owners in Howner.
  destruct Howner as [<-|[<-|[<-|[<-|[]]]]];
    fields_of_generated Hcls; report_of; rewrite Hval;
    unfold clean, well_typed, validate, has_choices, validate_related, run_validators,
      field_validators;
    cbn [f_kind f_choices f_blank f_null f_validators f_max_length choices CharField
         CONTACT_TYPES negb andb is_empty value_eqb];
    destruct (String.eqb s ""); cbn [negb andb]; try reflexivity;
    destruct (existsb (value_eqb (VStr s)) CONTACT_TYPES);
    cbn [flat_map run_validator Datatypes.app];
    try reflexivity; destruct (12 <? len s)%nat; reflexivity.
Qed.

(** X5.  On the [ContactDetail] class generated for any of the four owners,
    a [contact_type] text passes exactly when it is one of the seven database
    values of [CONTACT_TYPES]; the empty text and the lower-case identifiers
    are rejected. *)
Theorem X5_contact_type_choices ext app_name db obj owner s :
  In owner (owners app_name) ->
  i_class obj = contact_details_of app_name owner ->
  getattr obj "contact_type" = VStr s ->
  (field_errors ext app_name db obj "contact_type" = [] <->
   In s ["FAX"; "PHONE"; "MOBILE"; "EMAIL"; "MAIL"; "TWITTER"; "FACEBOOK"]).
Proof.
  intros Howner Hcls Hval.
  rewrite (contact_type_report ext app_name db obj owner s Howner Hcls Hval).
  split.
  - destruct (String.eqb_spec s ""); [discriminate|].
    destruct (existsb (value_eqb (VStr s)) CONTACT_TYPES) eqn:Hex; [|discriminate].
    intros _. apply existsb_exists in Hex. destruct Hex as (v & Hin & Heq).
    unfold CONTACT_TYPES in Hin. cbn [In] in Hin.
    repeat (destruct Hin as [<-|Hin];
            [apply String.eqb_eq in Heq; subst s; cbn; auto 10|]).
    destruct Hin.
  - cbn [In]. intros H.
    repeat (destruct H as [<-|H]; [reflexivity|]). destruct H.
Qed.

Lemma X5_contact_type_choices_witness :
  In Person (owners "civic")
  /\ i_class jane_email = contact_details_of "civic" Person
  /\ getattr jane_email "contact_type" = VStr "EMAIL"
  /\ (field_errors no_check "civic" civic_db jane_email "contact_type" = [] <->
      In "EMAIL" ["FAX"; "PHONE"; "MOBILE"; "EMAIL"; "MAIL"; "TWITTER"; "FACEBOOK"]).
Proof.
  assert (Howner : In Person (owners "civic")) by (left; reflexivity).
  split; [exact Howner|]. split; [reflexivity|]. split; [reflexivity|].
  apply (X5_contact_type_choices no_check "civic" civic_db jane_email Person "EMAIL" Howner);
    reflexivity.
Defined.

Lemma full_clean_raises ext app_name db obj name :
  field_errors ext app_name db obj name <> [] ->
  full_clean ext app_name db obj
  = Raise (ValidationError (full_clean_errors ext app_name db obj)).
Proof.
  unfold field_errors, full_clean.
  destruct (full_clean_errors ext app_name db obj); [intros H; now elim H | reflexivity].
Qed.





Lemma post_report ext app_name db obj :
  i_class obj = Membership app_name ->
  getattr obj "post" = VNone ->
  field_errors ext app_name db obj "post" = ["blank"].
Proof.
  intros Hcls Hval. rewrite field_errors_report by reflexivity.
  fields_of_class Hcls. report_of. rewrite Hval. reflexivity.
Qed.

(** X8.  [Membership.post] is declared [null=True] without [blank=True]:
    validation reports a membership without post as [blank] and [full_clean]
    raises, while the save, which validates nothing for [Membership], writes
    the row. *)
Theorem X8_membership_post_blank ext app_name db obj :
  i_class obj = Membership app_name ->
  getattr obj "post" = VNone ->
  getattr obj "person" <> VNone -> getattr obj "organization" <> VNone ->
  getattr obj "on_behalf_of" <> VNone ->
  field_errors ext app_name db obj "post" = ["blank"]
  /\ full_clean ext app_name db obj
     = Raise (ValidationError (full_clean_errors ext app_name db obj))
  /\ save (loaded ext app_name) db obj = Ok (store db obj).
Proof.
  intros Hcls Hval Hp Ho Hb.
  pose proof (post_report ext app_name db obj Hcls Hval) as Hrep.
  split; [exact Hrep|]. split.
  - apply (full_clean_raises ext app_name db obj "post"). rewrite Hrep. discriminate.
  - rewrite save_loaded, Hcls, membership_unhooked. unfold save_table.
    rewrite (membership_not_null app_name obj Hcls).
    destruct (value_eqb (getattr obj "person") VNone) eqn:Ep;
      [apply value_eqb_none in Ep; contradiction|].
    destruct (value_eqb (getattr obj "organization") VNone) eqn:Eo;
      [apply value_eqb_none in Eo; contradiction|].
    destruct (value_eqb (getattr obj "on_behalf_of") VNone) eqn:Eb;
      [apply value_eqb_none in Eb; contradiction|].
    reflexivity.
Qed.

Lemma X8_membership_post_blank_witness :
  i_class member = Membership "civic"
  /\ getattr member "post" = VNone
  /\ field_errors no_check "civic" civic_db member "post" = ["blank"]
  /\ full_clean no_check "civic" civic_db member
     = Raise (ValidationError (full_clean_errors no_check "civic" civic_db member))
  /\ save (loaded no_check "civic") civic_db member = Ok (store civic_db member).
Proof.
  split; [reflexivity|]. split; [reflexivity|].
  apply (X8_membership_post_blank no_check "civic" civic_db member);
    first [reflexivity | vm_compute; discriminate].
Defined.



Lemma getattr_singleton c pk k v k' :
  getattr (Instance c pk {[ k := v ]}) k' = if String.eqb k k' then v else VNone.
Proof.
  unfold getattr. cbn [i_attrs]. rewrite lookup_singleton.
  destruct (String.eqb_spec k k'); destruct (decide (k = k')); cbn; congruence.
Qed.

(** X9.  A name is all a person needs: a [Person] with a non-empty name of
    at most 128 characters and nothing else set passes [full_clean], and the
    save appends it to the table under the next primary key. *)
Theorem X9_named_person_saved ext app_name db s :
  s <> "" -> (len s <= 128)%nat ->
  full_clean ext app_name db (Instance Person None {[ "name" := VStr s ]}) = Ok tt
  /\ save (loaded ext app_name) db (Instance Person None {[ "name" := VStr s ]})
     = Ok (db ++ [Instance Person (Some (next_pk db Person)) {[ "name" := VStr s ]}]).
Proof.
  intros Hne Hlen.
  assert (Hempty : String.eqb s "" = false) by (apply String.eqb_neq; exact Hne).
  assert (Hfit : (128 <? len s)%nat = false) by (apply Nat.ltb_ge; exact Hlen).
  assert (Hclean : full_clean ext app_name db (Instance Person None {[ "name" := VStr s ]})
                   = Ok tt).
  { unfold full_clean, full_clean_errors, clean_fields.
    cbn [i_class i_attrs meta_fields Person flat_map Dateframeable
         Timestampable Permalinkable PopoloModel Model Datatypes.app].
    unfold clean_field. report_of. rewrite !getattr_singleton.
    cbn [String.eqb Ascii.eqb Bool.eqb is_empty andb].
    rewrite clean_required_text by reflexivity.
    rewrite Hempty, Hfit. reflexivity. }
  split; [exact Hclean|].
  rewrite save_loaded, hooked_loaded, Hclean.
  cbn [i_class c_name Person String.eqb Ascii.eqb Bool.eqb orb bind].
  unfold save_table, not_null_violation.
  cbn [i_class meta_fields Person flat_map Dateframeable
       Timestampable Permalinkable PopoloModel Model Datatypes.app].
  cbn [List.find f_null f_name validators null blank choices CharField EmailField
       URLField IntegerField TextField negb andb].
  rewrite getattr_singleton. reflexivity.
Qed.

Lemma X9_named_person_saved_witness :
  "Jane Doe" <> "" /\ (len "Jane Doe" <= 128)%nat
  /\ save (loaded no_check "civic") civic_db (Instance Person None {[ "name" := VStr "Jane Doe" ]})
     = Ok (civic_db ++ [Instance Person (Some (next_pk civic_db Person))
                                 {[ "name" := VStr "Jane Doe" ]}]).
Proof.
  assert (Hne : "Jane Doe" <> "") by discriminate.
  assert (Hlen : (len "Jane Doe" <= 128)%nat) by (vm_compute; lia).
  split; [exact Hne|]. split; [exact Hlen|].
  exact (proj2 (X9_named_person_saved no_check "civic" civic_db "Jane Doe" Hne Hlen)).
Defined.

(* ===================================================================== *)
(** ** The generator as an operation on the namespace *)
(* ===================================================================== *)

Section FoldInsert.
Context {A : Type} (f : A -> pyclass).

(** Folding "bind the class under its name" over a list: names outside the
    list keep their binding, names inside get one that does not depend on the
    map the fold started from. *)
Lemma foldl_insert_frame (l : list A) (g : gmap string pyclass) k :
  ~ In k (map (fun i => c_name (f i)) l) ->
  foldl (fun g i => <[c_name (f i) := f i]> g) g l !! k = g !! k.
Proof.
  revert g. induction l as [|c l IH]; intros g Hk; [reflexivity|].
  cbn [foldl]. rewrite IH by (intros H; apply Hk; right; exact H).
  apply lookup_insert_ne. intros Heq. apply Hk. left. exact Heq.
Qed.

Lemma foldl_insert_covered (l : list A) (g g' : gmap string pyclass) k :
  In k (map (fun i => c_name (f i)) l) ->
  foldl (fun g i => <[c_name (f i) := f i]> g) g l !! k
  = foldl (fun g i => <[c_name (f i) := f i]> g) g' l !! k.
Proof.
  revert g g'. induction l as [|c l IH]; intros g g' Hk; [destruct Hk|].
  cbn [foldl].
  destruct (in_dec string_dec k (map (fun i => c_name (f i)) l)) as [Hin|Hout].
  - apply IH. exact Hin.
  - rewrite (foldl_insert_frame l (<[c_name (f c) := f c]> g) k Hout).
    rewrite (foldl_insert_frame l (<[c_name (f c) := f c]> g') k Hout).
    destruct Hk as [<-|Hin]; [|contradiction].
    now rewrite !lookup_insert_eq.
Qed.

Lemma foldl_insert_absorb (l1 l2 : list A) (g : gmap string pyclass) :
  incl (map (fun i => c_name (f i)) l1) (map (fun i => c_name (f i)) l2) ->
  foldl (fun g i => <[c_name (f i) := f i]> g)
        (foldl (fun g i => <[c_name (f i) := f i]> g) g l1) l2
  = foldl (fun g i => <[c_name (f i) := f i]> g) g l2.
Proof.
  intros Hincl. apply map_eq. intros k.
  destruct (in_dec string_dec k (map (fun i => c_name (f i)) l2)) as [Hin|Hout].
  - apply foldl_insert_covered. exact Hin.
  - rewrite (foldl_insert_frame l2
               (foldl (fun g i => <[c_name (f i) := f i]> g) g l1) k Hout).
    rewrite (foldl_insert_frame l2 g k Hout).
    apply foldl_insert_frame. intros H. apply Hout, Hincl, H.
Qed.

End FoldInsert.



Lemma linked_info_types_incl e1 e2 :
  implb e1 e2 = true -> incl (linked_info_types e1) (linked_info_types e2).
Proof.
  destruct e1, e2; intros H; try discriminate H; intros i Hi; try exact Hi.
  unfold linked_info_types in *. apply in_or_app. left.
  rewrite app_nil_r in Hi. exact Hi.
Qed.

(** X11.  Calling the generator again for the same owner changes nothing,
    and a call with [extra_info] set absorbs an earlier call without it: the
    classes are rebound to equal classes. *)
Theorem X11_generate_absorbs app_name model e1 e2 ns :
  implb e1 e2 = true ->
  (_generate_common_tables app_name model e1 ;;
   _generate_common_tables app_name model e2) ns
  = _generate_common_tables app_name model e2 ns.
Proof.
  intros Himp. unfold mbind, M_bind. rewrite !generate_run.
  cbn [globals pre_save]. f_equal. f_equal.
  apply (foldl_insert_absorb (linked_info_model app_name model)).
  apply incl_map, linked_info_types_incl, Himp.
Qed.

Lemma X11_generate_absorbs_witness :
  implb false true = true
  /\ (_generate_common_tables "civic" Person false ;;
      _generate_common_tables "civic" Person true) empty_namespace
     = _generate_common_tables "civic" Person true empty_namespace.
Proof.
  split; [reflexivity|].
  apply (X11_generate_absorbs "civic" Person false true empty_namespace). reflexivity.
Defined.

Ltac each_owner H :=
  unfold owners in H; cbn [In] in H;
  destruct H as [<-|[<-|[<-|[<-|[]]]]].

Ltac each_kind H :=
  match type of H with
  | In _ (linked_info_types ?e) =>
      destruct e; cbn [linked_info_types Datatypes.app In] in H;
      repeat (destruct H as [<-|H]); try destruct H
  end.

(** X12.  Of the classes generated for the four owners, those of kind
    [ContactDetail] and [OtherName] inherit [Dateframeable], those of kind
    [ContactDetail] alone inherit [Timestampable], none inherits
    [Permalinkable]; all inherit [PopoloModel] and are abstract. *)
Theorem X12_side_table_mixins app_name owner extra_info i :
  In owner (owners app_name) ->
  In i (linked_info_types extra_info) ->
  issubclass (linked_info_model app_name owner i) "Dateframeable"
  = (String.eqb (info_name i) "ContactDetail" || String.eqb (info_name i) "OtherName")
  /\ issubclass (linked_info_model app_name owner i) "Timestampable"
     = String.eqb (info_name i) "ContactDetail"
  /\ issubclass (linked_info_model app_name owner i) "Permalinkable" = false
  /\ issubclass (linked_info_model app_name owner i) "PopoloModel" = true
  /\ c_abstract (linked_info_model app_name owner i) = true.
Proof.
  intros Howner Hi. each_owner Howner; each_kind Hi; repeat split; reflexivity.
Qed.

Lemma X12_side_table_mixins_witness :
  In (Post "civic") (owners "civic")
  /\ In (Info "Link" "links" LinkBase) (linked_info_types false)
  /\ issubclass (linked_info_model "civic" (Post "civic") (Info "Link" "links" LinkBase))
       "Dateframeable" = false.
Proof.
  assert (Howner : In (Post "civic") (owners "civic")) by (right; right; left; reflexivity).
  assert (Hi : In (Info "Link" "links" LinkBase) (linked_info_types false))
    by (right; left; reflexivity).
  split; [exact Howner|]. split; [exact Hi|].
  exact (proj1 (X12_side_table_mixins "civic" (Post "civic") false
                  (Info "Link" "links" LinkBase) Howner Hi)).
Defined.

(** X13.  No receiver is connected for a generated class: saving an instance
    of any side table of the four owners runs no validation, it is the bare
    write. *)
Theorem X13_side_table_unvalidated ext app_name db obj owner extra_info i :
  In owner (owners app_name) ->
  In i (linked_info_types extra_info) ->
  i_class obj = linked_info_model app_name owner i ->
  hooked (loaded ext app_name) (i_class obj) = false
  /\ save (loaded ext app_name) db obj = save_table db obj.
Proof.
  intros Howner Hi Hcls.
  assert (Hhook : hooked (loaded ext app_name) (i_class obj) = false).
  { rewrite Hcls, hooked_loaded. each_owner Howner; each_kind Hi; reflexivity. }
  split; [exact Hhook|]. rewrite save_loaded, Hhook. reflexivity.
Qed.

Lemma X13_side_table_unvalidated_witness :
  In Person (owners "civic")
  /\ In (Info "OtherName" "other_names" OtherNameBase) (linked_info_types true)
  /\ i_class backwards_name
     = linked_info_model "civic" Person (Info "OtherName" "other_names" OtherNameBase)
  /\ save (loaded no_check "civic") civic_db backwards_name
     = save_table civic_db backwards_name.
Proof.
  assert (Howner : In Person (owners "civic")) by (left; reflexivity).
  assert (Hi : In (Info "OtherName" "other_names" OtherNameBase) (linked_info_types true))
    by (do 4 right; left; reflexivity).
  split; [exact Howner|]. split; [exact Hi|]. split; [reflexivity|].
  exact (proj2 (X13_side_table_unvalidated no_check "civic" civic_db backwards_name
                  Person true (Info "OtherName" "other_names" OtherNameBase)
                  Howner Hi eq_refl)).
Defined.


Lemma eqb_append_l (x a b : string) :
  String.eqb (x ++ a) (x ++ b) = String.eqb a b.
Proof.
  induction x as [|c x IH]; [reflexivity|].
  simpl. now rewrite Ascii.eqb_refl.
Qed.

(** The registry holds the classes of the module, each once. *)
Lemma map_to_list_foldl_insert (l : list pyclass) (g : gmap string pyclass) :
  NoDup (map c_name l) ->
  (forall c, c ∈ l -> g !! c_name c = None) ->
  map_to_list (foldl (fun g c => <[c_name c := c]> g) g l)
  ≡ₚ map (fun c => (c_name c, c)) l ++ map_to_list g.
Proof.
  revert g. induction l as [|c l IH]; intros g Hnd Hfresh; [reflexivity|].
  cbn [foldl map]. apply NoDup_cons in Hnd as [Hc Hnd].
  rewrite IH.
  - rewrite map_to_list_insert by (apply Hfresh; left).
    cbn [Datatypes.app]. symmetry. apply Permutation_middle.
  - exact Hnd.
  - intros c' Hc'. rewrite lookup_insert_ne.
    + apply Hfresh. now right.
    + intros Heq. apply Hc. rewrite Heq. apply list_elem_of_fmap. eauto.
Qed.

Lemma module_class_names_unique app_name :
  NoDup (map c_name (module_classes app_name)).
Proof. apply (bool_decide_unpack _). vm_compute. exact I. Qed.

Lemma models_of_loaded ext app_name :
  models_of (loaded ext app_name) ≡ₚ module_classes app_name.
Proof.
  unfold models_of. rewrite globals_loaded.
  rewrite map_to_list_foldl_insert.
  - rewrite map_to_list_empty, app_nil_r.
    induction (module_classes app_name) as [|c l IH]; [reflexivity|].
    cbn. now rewrite IH.
  - apply module_class_names_unique.
  - intros c _. apply lookup_empty.
Qed.

Lemma reverse_accessors_perm models models' target name :
  models ≡ₚ models' ->
  reverse_accessors models target name ≡ₚ reverse_accessors models' target name.
Proof. intros H. unfold reverse_accessors. now rewrite H. Qed.

Ltac accessors_of_module :=
  unfold reverse_accessors, module_classes, side_tables, label, get_accessor_name;
  cbn -[String.eqb String.append];
  unfold model_path; rewrite ?eqb_append_l.

Lemma value_eqb_eq a b : value_eqb a b = true <-> a = b.
Proof.
  destruct a, b; cbn; split; intros H; try congruence.
  - apply String.eqb_eq in H. congruence.
  - injection H as ->. apply String.eqb_refl.
  - apply Z.eqb_eq in H. congruence.
  - injection H as ->. apply Z.eqb_refl.
  - apply Nat.eqb_eq in H. congruence.
  - injection H as ->. apply Nat.eqb_refl.
Qed.

Lemma related_objects_spec db source f obj r :
  In r (related_objects db source f obj) <->
  In r db /\ c_name (i_class r) = c_name source
  /\ exists pk, i_pk obj = Some pk /\ getattr r (f_name f) = VRef pk.
Proof.
  unfold related_objects. destruct (i_pk obj) as [pk|].
  - rewrite filter_In, andb_true_iff, String.eqb_eq, value_eqb_eq. split.
    + intros (Hin & Hc & Hv). eauto.
    + intros (Hin & Hc & pk' & [= <-] & Hv). auto.
  - split; [intros [] | intros (_ & _ & pk & Hpk & _); discriminate].
Qed.

(** X16.  The reverse accessors do not clash: on each of the four entities,
    at most one key of the module installs an accessor of a given name. *)
Theorem X16_reverse_accessors_unique ext app_name owner name :
  In owner (owners app_name) ->
  length (reverse_accessors (models_of (loaded ext app_name)) (label app_name owner) name)
  <= 1.
Proof.
  intros Howner.
  rewrite (Permutation_length
             (reverse_accessors_perm _ _ (label app_name owner) name
                (models_of_loaded ext app_name))).
  each_owner Howner; accessors_of_module;
  repeat match goal with
         | |- context [String.eqb ?a name] =>
             destruct (String.eqb_spec a name) as [<-|?]; [vm_compute; lia|]
         end; vm_compute; lia.
Qed.

Lemma X16_reverse_accessors_unique_witness :
  In (Organization "civic") (owners "civic")
  /\ length (reverse_accessors (models_of (loaded no_check "civic"))
               (label "civic" (Organization "civic")) "memberships") <= 1.
Proof.
  assert (Howner : In (Organization "civic") (owners "civic")) by (right; left; reflexivity).
  split; [exact Howner|].
  exact (X16_reverse_accessors_unique no_check "civic" (Organization "civic")
           "memberships" Howner).
Defined.

(** The accessor a declared key installs resolves to that key alone. *)
Lemma declared_accessor ext app_name target name source key :
  In (target, name, source, key) (declared_relations app_name) ->
  exists f, f_name f = key /\
    reverse_accessors (models_of (loaded ext app_name)) (label app_name target) name
    = [(source, f)].
Proof.
  intros Hrel. unfold declared_relations in Hrel. cbn [In] in Hrel.
  repeat (destruct Hrel as [[= <- <- <- <-]|Hrel];
    [eexists; split;
     [| apply Permutation_singleton_r;
        rewrite (reverse_accessors_perm _ _ _ _ (models_of_loaded ext app_name));
        accessors_of_module; vm_compute; reflexivity];
     reflexivity|]).
  destruct Hrel.
Qed.

(** X17.  The collections the hand-written keys install: [memberships] on a
    person, [memberships], [memberships_on_behalf_of], [posts] and
    [organization_set] (the children; [parent] has no [related_name]) on an
    organization, [memberships] on a post.  Each returns exactly the stored
    rows of the declaring model whose key holds the primary key of the
    object. *)
Theorem X17_reverse_collections ext app_name db target name source key obj :
  In (target, name, source, key) (declared_relations app_name) ->
  i_class obj = target ->
  exists rows,
    related_all app_name (models_of (loaded ext app_name)) db obj name = Ok rows
    /\ forall r, In r rows <->
         In r db /\ c_name (i_class r) = c_name source
         /\ exists pk, i_pk obj = Some pk /\ getattr r key = VRef pk.
Proof.
  intros Hrel Hcls.
  destruct (declared_accessor ext app_name target name source key Hrel)
    as (f & Hkey & Hone).
  exists (related_objects db source f obj). split.
  - unfold related_all. rewrite Hcls, Hone. reflexivity.
  - intros r. rewrite related_objects_spec, Hkey. reflexivity.
Qed.

Lemma X17_reverse_collections_witness :
  In (Organization "civic", "organization_set", Organization "civic", "parent")
     (declared_relations "civic")
  /\ i_class council = Organization "civic"
  /\ exists rows,
       related_all "civic" (models_of (loaded no_check "civic")) civic_db council
         "organization_set" = Ok rows
       /\ forall r, In r rows <->
            In r civic_db /\ c_name (i_class r) = c_name (Organization "civic")
            /\ exists pk, i_pk council = Some pk /\ getattr r "parent" = VRef pk.
Proof.
  assert (Hrel : In (Organization "civic", "organization_set", Organization "civic", "parent")
                    (declared_relations "civic")) by (do 5 right; left; reflexivity).
  split; [exact Hrel|]. split; [reflexivity|].
  exact (X17_reverse_collections no_check "civic" civic_db _ _ _ _ council Hrel eq_refl).
Defined.

Lemma store_keeps db obj :
  exists pk, In (Instance (i_class obj) (Some pk) (i_attrs obj)) (store db obj).
Proof.
  unfold store. destruct obj as [c [pk|] attrs]; cbn [i_pk i_class i_attrs].
  - exists pk. apply in_or_app. right. left. reflexivity.
  - eexists. apply in_or_app. right. left. reflexivity.
Qed.

(** X18.  Saving a membership whose [person] is a stored person (with its
    organizations given) succeeds, and the [memberships] collection of that
    person then contains the row. *)
Theorem X18_saved_membership_listed ext app_name db person pk m :
  i_class person = Person -> i_pk person = Some pk ->
  i_class m = Membership app_name ->
  getattr m "person" = VRef pk ->
  getattr m "organization" <> VNone -> getattr m "on_behalf_of" <> VNone ->
  exists db' rows row,
    save (loaded ext app_name) db m = Ok db'
    /\ related_all app_name (models_of (loaded ext app_name)) db' person "memberships"
       = Ok rows
    /\ In row rows /\ i_class row = i_class m /\ i_attrs row = i_attrs m.
Proof.
  intros Hperson Hpk Hcls Hkey Ho Hb.
  destruct (declared_accessor ext app_name Person "memberships" (Membership app_name)
              "person") as (f & Hf & Hone); [left; reflexivity|].
  destruct (store_keeps db m) as (pk' & Hin).
  exists (store db m), (related_objects (store db m) (Membership app_name) f person),
    (Instance (i_class m) (Some pk') (i_attrs m)).
  split.
  { rewrite save_loaded, Hcls, membership_unhooked. unfold save_table.
    rewrite (membership_not_null app_name m Hcls), Hkey. cbn [value_eqb].
    destruct (value_eqb (getattr m "organization") VNone) eqn:Eo;
      [apply value_eqb_none in Eo; contradiction|].
    destruct (value_eqb (getattr m "on_behalf_of") VNone) eqn:Eb;
      [apply value_eqb_none in Eb; contradiction|].
    reflexivity. }
  split.
  { unfold related_all. rewrite Hperson, Hone. reflexivity. }
  split; [|split; reflexivity].
  apply related_objects_spec. split; [exact Hin|].
  split; [cbn [i_class]; rewrite Hcls; reflexivity|].
  exists pk. split; [exact Hpk|]. rewrite Hf. exact Hkey.
Qed.

Lemma X18_saved_membership_listed_witness :
  i_class jane_stored = Person /\ i_pk jane_stored = Some 1
  /\ i_class member = Membership "civic"
  /\ getattr member "person" = VRef 1
  /\ exists db' rows row,
       save (loaded no_check "civic") civic_db member = Ok db'
       /\ related_all "civic" (models_of (loaded no_check "civic")) db' jane_stored
            "memberships" = Ok rows
       /\ In row rows /\ i_class row = i_class member /\ i_attrs row = i_attrs member.
Proof.
  split; [reflexivity|]. split; [reflexivity|]. split; [reflexivity|].
  split; [reflexivity|].
  apply (X18_saved_membership_listed no_check "civic" civic_db jane_stored 1 member);
    first [reflexivity | vm_compute; discriminate].
Defined.








